(** * Source synchronisation and session state of the chatbot front-end

    A shallow embedding of [src/services/storageService.ts] (the remote
    store client) and of the state-handling callbacks of [src/App.tsx]
    (the session state manager and the query orchestrator), with the
    properties of the specification stated over them.

    Conventions of the embedding.
    - A JavaScript string is a [string]: the bytes of its UTF-8 encoding.
      Every test the code makes on strings ([includes], [startsWith],
      [===], the characters escaped by [JSON.stringify]) looks for ASCII
      characters only, so it reads the same on bytes as on UTF-16 units.
    - [string | null] and optional properties are [option string]; a
      JavaScript truthiness test on such a value is [truthy].
    - [Date.now()] is an input of the callback that reads it.
    - The network and the answering service are oracles handed to the
      function that calls them; every call made is recorded in a trace,
      so that "no request was issued" is a statement about the trace.
    - An [await]ing callback is run to completion in one step, on the
      state captured by its closure. *)

From Stdlib Require Import ZArith Ascii DecimalString.
From stdpp Require Import base option list strings gmap.

Local Open Scope Z_scope.

(* ===================================================================== *)
(** ** JavaScript strings                                                 *)
(* ===================================================================== *)

Module Js.

(** [!!s] for a [string | null | undefined]: only a non-empty string is
    truthy. *)
Definition truthy (s : option string) : bool :=
  match s with
  | Some (String _ _) => true
  | _ => false
  end.

(** [hay.includes(needle)] *)
Fixpoint includes (hay needle : string) : bool :=
  String.prefix needle hay ||
  match hay with
  | EmptyString => false
  | String _ rest => includes rest needle
  end.

(** [hay.startsWith(needle)] *)
Definition startsWith (hay needle : string) : bool := String.prefix needle hay.

(** The decimal rendering of an integer inside a template literal. *)
Definition show (n : Z) : string := NilZero.string_of_int (Z.to_int n).

(** The outcome of an operation that may throw: the thrown error's
    [message], or the value. *)
Inductive result (A : Type) : Type :=
| Throws (message : string)
| Returns (value : A).
Arguments Throws {A} message.
Arguments Returns {A} value.

End Js.

(* ===================================================================== *)
(** ** [JSON.stringify] on strings                                        *)
(* ===================================================================== *)

Module Json.

Definition dquote : ascii := "034"%char.
Definition backslash : ascii := "\"%char.
Definition newline : ascii := "010"%char.

Definition hex_digit (n : N) : ascii :=
  match n with
  | 0 => "0" | 1 => "1" | 2 => "2" | 3 => "3" | 4 => "4" | 5 => "5"
  | 6 => "6" | 7 => "7" | 8 => "8" | 9 => "9" | 10 => "a" | 11 => "b"
  | 12 => "c" | 13 => "d" | 14 => "e" | _ => "f"
  end%N%char.

(** One code unit of [QuoteJSONString]: the two-character escapes, the
    [\u00xx] form for the other control characters, and every other
    character as it is. *)
Definition escape_char (c : ascii) : string :=
  match N_of_ascii c with
  | 8 => "\b"
  | 9 => "\t"
  | 10 => "\n"
  | 12 => "\f"
  | 13 => "\r"
  | 34 => String backslash (String dquote "")
  | 92 => "\\"
  | n =>
      if (n <? 32)%N
      then "\u00" +:+ String (hex_digit (n / 16)) (String (hex_digit (n mod 16)) "")
      else String c ""
  end%N.

Fixpoint escape (s : string) : string :=
  match s with
  | EmptyString => ""
  | String c rest => escape_char c +:+ escape rest
  end.

Definition quote (s : string) : string :=
  String dquote (escape s +:+ String dquote "").

(** Reading back one escaped code unit from the front of a text; a bare
    double quote ends the string and is not a code unit. *)
Definition hex_value (c : ascii) : option N :=
  let n := N_of_ascii c in
  if (48 <=? n)%N && (n <=? 57)%N then Some (n - 48)%N
  else if (97 <=? n)%N && (n <=? 102)%N then Some (n - 87)%N
  else None.

Definition unescape_char (s : string) : option (ascii * string) :=
  match s with
  | EmptyString => None
  | String c rest =>
      if Ascii.eqb c dquote then None
      else if Ascii.eqb c backslash then
        match rest with
        | String "b" r => Some ("008"%char, r)
        | String "t" r => Some ("009"%char, r)
        | String "n" r => Some ("010"%char, r)
        | String "f" r => Some ("012"%char, r)
        | String "r" r => Some ("013"%char, r)
        | String "\" r => Some (backslash, r)
        | String "u" (String "0" (String "0" (String h (String l r)))) =>
            match hex_value h, hex_value l with
            | Some a, Some b => Some (ascii_of_N (16 * a + b), r)
            | _, _ => None
            end
        | String d r => if Ascii.eqb d dquote then Some (dquote, r) else None
        | EmptyString => None
        end
      else Some (c, rest)
  end%char.

End Json.

(* ===================================================================== *)
(** ** Data model ([types.ts])                                            *)
(* ===================================================================== *)

(** A JavaScript object keeps its own properties in the order in which
    they were created, and [JSON.stringify] writes them in that order.
    The interfaces of [types.ts] say which properties an object has, not
    in which order; an object of the model therefore carries its order
    besides its values.  A property whose value is [undefined] is written
    by nothing and read as missing; it is modelled as a missing one. *)

(** The order of the two properties of a content object. *)
Inductive ContentOrder : Type := MimeTypeFirst | DataFirst.

Module Content.
Record t : Type := make {
  mimeType : string;
  data : string;
  order : ContentOrder
}.

(** The object literal [{ mimeType: ..., data: ... }]. *)
Definition mk (mimeType data : string) : t := make mimeType data MimeTypeFirst.

(** The own properties, in order, as pairs of a key and a value. *)
Definition properties (c : t) : list (string * string) :=
  match order c with
  | MimeTypeFirst => [("mimeType", mimeType c); ("data", data c)]
  | DataFirst => [("data", data c); ("mimeType", mimeType c)]
  end.
End Content.

(** The order of the three properties that every source has. *)
Inductive SourceOrder : Type :=
| IdTitleContent | IdContentTitle
| TitleIdContent | TitleContentId
| ContentIdTitle | ContentTitleId.

(** Where the optional [fileName] stands: after how many of the three
    other properties. *)
Inductive Slot : Type := Slot0 | Slot1 | Slot2 | Slot3.

(** A property of a source object: a key with a string, or a key with a
    content object. *)
Inductive Property : Type :=
| PString (key value : string)
| PObject (key : string) (value : Content.t).

Module Source.
Record t : Type := make {
  id : string;
  title : string;
  fileNameProperty : option (string * Slot);
  content : Content.t;
  order : SourceOrder
}.

(** [source.fileName] *)
Definition fileName (s : t) : option string := fst <$> fileNameProperty s.

(** The object literal [{ id, title, content, fileName }] of [addSource];
    with an [undefined] file name the last property is not there. *)
Definition mk (id title : string) (fileName : option string) (content : Content.t) : t :=
  make id title ((fun name => (name, Slot3)) <$> fileName) content IdTitleContent.

Definition insert_at (slot : Slot) (p : Property) (l : list Property) : list Property :=
  match slot, l with
  | Slot0, _ => p :: l
  | Slot1, x :: rest => x :: p :: rest
  | Slot2, x :: y :: rest => x :: y :: p :: rest
  | _, _ => l ++ [p]
  end.

(** The own properties, in order. *)
Definition properties (s : t) : list Property :=
  let i := PString "id" (id s) in
  let t := PString "title" (title s) in
  let c := PObject "content" (content s) in
  let others :=
    match order s with
    | IdTitleContent => [i; t; c]
    | IdContentTitle => [i; c; t]
    | TitleIdContent => [t; i; c]
    | TitleContentId => [t; c; i]
    | ContentIdTitle => [c; i; t]
    | ContentTitleId => [c; t; i]
    end in
  match fileNameProperty s with
  | Some (name, slot) => insert_at slot (PString "fileName" name) others
  | None => others
  end.

(** The values of a source, whatever the order of its properties: two
    sources are structurally equal when they have the same values. *)
Definition values (s : t) : string * string * option string * (string * string) :=
  (id s, title s, fileName s, (Content.mimeType (content s), Content.data (content s))).
End Source.

Module Citation.
(** What the answering service returns for one citation. *)
Record raw : Type := mkRaw { rawSourceId : string; rawQuote : string }.
Record t : Type := mk {
  sourceId : string;
  sourceTitle : string;
  quote : string
}.
End Citation.

Inductive Role : Type := user | model.

Module ChatMessage.
Record t : Type := mk {
  id : string;
  role : Role;
  text : string;
  citations : option (list Citation.t)
}.
End ChatMessage.

Inductive ToastType : Type := success | error | info.

Module ToastMessage.
Record t : Type := mk { id : Z; message : string; type : ToastType }.
End ToastMessage.

(* ===================================================================== *)
(** ** [JSON.stringify] on source collections                             *)
(* ===================================================================== *)

Module Stringify.
Import Json.

(** A property of an object: the quoted key, a colon, the value. *)
Definition member (key value : string) : string :=
  quote key +:+ ":" +:+ value.

(** An object: its properties in their order, between braces. *)
Definition object (members : list string) : string :=
  "{" +:+ String.concat "," members +:+ "}".

Definition content (c : Content.t) : string :=
  object (map (fun p => member (fst p) (quote (snd p))) (Content.properties c)).

Definition property (p : Property) : string :=
  match p with
  | PString key value => member key (quote value)
  | PObject key value => member key (content value)
  end.

Definition source (s : Source.t) : string :=
  object (map property (Source.properties s)).

(** [JSON.stringify(sources)] *)
Definition sources (l : list Source.t) : string :=
  "[" +:+ String.concat "," (map source l) +:+ "]".

(** *** The indented form, [JSON.stringify(sources, null, 2)] *)

Definition nl : string := String newline "".

Fixpoint indent (n : nat) : string :=
  match n with
  | O => ""
  | S k => String " " (indent k)
  end.

Definition member_pretty (key value : string) : string :=
  quote key +:+ ": " +:+ value.

(** An object that starts at indentation [depth]: every property on a
    line of its own, two columns further in. *)
Definition object_pretty (depth : nat) (members : list string) : string :=
  match members with
  | [] => "{}"
  | _ =>
      "{" +:+ nl +:+ indent (depth + 2) +:+
      String.concat ("," +:+ nl +:+ indent (depth + 2)) members +:+
      nl +:+ indent depth +:+ "}"
  end.

Definition content_pretty (depth : nat) (c : Content.t) : string :=
  object_pretty depth
    (map (fun p => member_pretty (fst p) (quote (snd p))) (Content.properties c)).

Definition property_pretty (depth : nat) (p : Property) : string :=
  match p with
  | PString key value => member_pretty key (quote value)
  | PObject key value => member_pretty key (content_pretty depth value)
  end.

Definition source_pretty (depth : nat) (s : Source.t) : string :=
  object_pretty depth (map (property_pretty (depth + 2)) (Source.properties s)).

Definition sources_pretty (l : list Source.t) : string :=
  match l with
  | [] => "[]"
  | _ =>
      "[" +:+ nl +:+ indent 2 +:+
      String.concat ("," +:+ nl +:+ indent 2) (map (source_pretty 2) l) +:+
      nl +:+ "]"
  end.

End Stringify.

(* ===================================================================== *)
(** ** The remote document store, as the client sees it                   *)
(* ===================================================================== *)

(** What [JSON.parse] can return for the text of the stored file.  The
    elements of an array are read at the type the code casts them to. *)
Inductive JsonValue : Type :=
| JNull
| JBoolean (b : bool)
| JNumber (n : Z)
| JString (s : string)
| JObject
| JArray (elements : list Source.t).

Module Gist.
(** One entry of [data.files]; [parsed] is the outcome of [JSON.parse]
    on its [content]. *)
Record File : Type := mkFile { parsed : Js.result JsonValue }.

(** The body of a response, after [response.json()]. *)
Record Data : Type := mkData {
  files : option (gmap string File);
  message : option string
}.
End Gist.

Module Http.
Inductive Method : Type := GET | PATCH.

Record Request : Type := mkRequest {
  method : Method;
  url : string;
  headers : list (string * string);
  body : option string
}.

Record Response : Type := mkResponse {
  status : Z;
  etagHeader : option string;          (* [response.headers.get('ETag')] *)
  json : Js.result Gist.Data           (* [await response.json()] *)
}.

(** [response.ok] *)
Definition ok (r : Response) : bool := (200 <=? status r) && (status r <=? 299).

(** [await fetch(...)]: the promise rejects (a transport failure, with
    the error's message) or resolves to a response. *)
Inductive Outcome : Type :=
| Rejected (message : string)
| Resolved (response : Response).

Definition Remote : Type := Request -> Outcome.
End Http.

(** The errors the client throws: its own [GistNotFoundError] class, and
    plain [Error]s (which here also stand for the errors thrown by the
    run time, told apart by their message only). *)
Inductive Exception : Type :=
| GistNotFoundError (message : string)
| Error (message : string).

Definition message_of (e : Exception) : string :=
  match e with
  | GistNotFoundError m => m
  | Error m => m
  end.

(* ===================================================================== *)
(** ** [services/storageService.ts]                                       *)
(* ===================================================================== *)

Definition GITHUB_API_BASE_URL : string := "https://api.github.com/gists".
Definition FILENAME : string := "sources.json".

Module AdminConfig.
Record t : Type := mk { githubToken : string; savedAt : option string }.
End AdminConfig.

(** The two object literals list their properties as id, title,
    fileName, content. *)
Definition DEFAULT_SOURCES : list Source.t :=
  [ Source.make "default-1" "Giới thiệu Tin Học Sao Việt"
      (Some ("gioi-thieu.txt", Slot2))
      (Content.mk "text/plain"
         "Trung Tâm Tin Học Sao Việt là một trong những đơn vị hàng đầu trong lĩnh vực đào tạo tin học văn phòng và ứng dụng công nghệ thông tin tại Việt Nam. Chúng tôi cung cấp các khóa học đa dạng từ cơ bản đến nâng cao, bao gồm Microsoft Word, Excel, PowerPoint, và các khóa học chuyên sâu về phân tích dữ liệu. Sứ mệnh của chúng tôi là trang bị cho học viên những kỹ năng cần thiết để thành công trong môi trường làm việc hiện đại.")
      IdTitleContent;
    Source.make "default-2" "Cam kết chất lượng"
      (Some ("cam-ket.txt", Slot2))
      (Content.mk "text/plain"
         "Tại Tin Học Sao Việt, chất lượng giảng dạy là ưu tiên số một. Đội ngũ giảng viên của chúng tôi là những chuyên gia có nhiều năm kinh nghiệm thực tế và khả năng sư phạm xuất sắc. Chúng tôi cam kết 100% học viên sau khi hoàn thành khóa học sẽ nắm vững kiến thức và tự tin áp dụng vào công việc. Môi trường học tập hiện đại, thân thiện và luôn hỗ trợ học viên 24/7.")
      IdTitleContent ].

(** The value [getSources] resolves to. *)
Module Fetched.
Record t : Type := mk {
  status : Z;
  sources : option (list Source.t);
  etag : option string
}.
End Fetched.

(** A function that talks to the store yields the requests it issued, in
    order, and either the exception it threw or its value. *)
Definition Io (A : Type) : Type := list Http.Request * (Exception + A).

Definition rate_limit_message : string :=
  "Đã đạt đến giới hạn truy cập API GitHub. Vui lòng thử lại sau.".

Definition not_found_message (gistId : string) : string :=
  "Không tìm thấy Gist với ID '" +:+ gistId +:+
  "'. Vui lòng kiểm tra lại Gist ID trong cấu hình của bạn.".

Definition api_error_message (status : Z) : string :=
  "Lỗi API GitHub! status: " +:+ Js.show status.

Definition network_error_message : string :=
  "Một lỗi mạng đã xảy ra khi lấy nguồn.".

(** The request [getSources] sends. *)
Definition getSources_request (gistId : string) (etag : option string) : Http.Request :=
  {| Http.method := Http.GET;
     Http.url := GITHUB_API_BASE_URL +:+ "/" +:+ gistId;
     Http.headers :=
       ("Accept", "application/vnd.github.v3+json") ::
       (if Js.truthy etag then [("If-None-Match", default "" etag)] else []);
     Http.body := None |}.

(** The [try] block of [getSources], from the outcome of [fetch] on. *)
Definition getSources_try (gistId : string) (etag : option string)
    (outcome : Http.Outcome) : Exception + Fetched.t :=
  match outcome with
  | Http.Rejected m => inl (Error m)
  | Http.Resolved response =>
      if Http.status response =? 304 then
        inr (Fetched.mk 304 None etag)
      else if negb (Http.ok response) then
        if Http.status response =? 404 then
          inl (GistNotFoundError (not_found_message gistId))
        else if Http.status response =? 403 then
          inl (Error rate_limit_message)
        else
          inl (Error (api_error_message (Http.status response)))
      else
        let newEtag := Http.etagHeader response in
        match Http.json response with
        | Js.Throws m => inl (Error m)
        | Js.Returns data =>
            match Gist.files data with
            | None => inr (Fetched.mk 200 (Some DEFAULT_SOURCES) newEtag)
            | Some files =>
                match files !! FILENAME with
                | None => inr (Fetched.mk 200 (Some DEFAULT_SOURCES) newEtag)
                | Some file =>
                    match Gist.parsed file with
                    | Js.Throws m => inl (Error m)
                    | Js.Returns (JArray sources) =>
                        inr (Fetched.mk 200
                               (Some (if (0 <? length sources)%nat
                                      then sources else DEFAULT_SOURCES))
                               newEtag)
                    | Js.Returns _ =>
                        inr (Fetched.mk 200 (Some DEFAULT_SOURCES) newEtag)
                    end
                end
            end
        end
  end.

(** The [catch] clause of [getSources]: its own errors pass, anything else
    becomes the network error. *)
Definition getSources_catch (e : Exception) : Exception :=
  match e with
  | GistNotFoundError _ => e
  | Error m => if Js.includes m "API GitHub" then e else Error network_error_message
  end.

Definition getSources (remote : Http.Remote) (gistId : option string)
    (etag : option string) : Io Fetched.t :=
  if negb (Js.truthy gistId) then
    ([], inr (Fetched.mk 200 (Some DEFAULT_SOURCES) None))
  else
    let gistId := default "" gistId in
    let request := getSources_request gistId etag in
    ([request],
     match getSources_try gistId etag (remote request) with
     | inl e => inl (getSources_catch e)
     | inr value => inr value
     end).

Definition config_required_message : string :=
  "Cấu hình lưu trữ (Gist ID và GitHub Token) là bắt buộc để lưu các nguồn.".

Definition save_failed_message : string := "Không thể lưu các nguồn.".

Definition saveSources_request (sources : list Source.t) (gistId githubToken : string)
    : Http.Request :=
  let payload :=
    "{" +:+ Stringify.member "files"
      ("{" +:+ Stringify.member FILENAME
         ("{" +:+ Stringify.member "content"
            (Json.quote (Stringify.sources_pretty sources)) +:+ "}") +:+ "}") +:+ "}" in
  {| Http.method := Http.PATCH;
     Http.url := GITHUB_API_BASE_URL +:+ "/" +:+ gistId;
     Http.headers :=
       [ ("Content-Type", "application/json");
         ("Authorization", "token " +:+ githubToken);
         ("Accept", "application/vnd.github.v3+json") ];
     Http.body := Some payload |}.

Definition saveSources_try (outcome : Http.Outcome) : Exception + option string :=
  match outcome with
  | Http.Rejected m => inl (Error m)
  | Http.Resolved response =>
      if negb (Http.ok response) then
        match Http.json response with
        | Js.Throws m => inl (Error m)
        | Js.Returns errorBody =>
            inl (Error ("Lỗi API GitHub! status: " +:+ Js.show (Http.status response) +:+
                        ", message: " +:+ default "undefined" (Gist.message errorBody)))
        end
      else inr (Http.etagHeader response)
  end.

Definition saveSources_catch (e : Exception) : Exception :=
  if Js.startsWith (message_of e) "Lỗi API GitHub!" then e else Error save_failed_message.

(** [saveSources] resolves to the new revision tag. *)
Definition saveSources (remote : Http.Remote) (sources : list Source.t)
    (gistId githubToken : option string) : Io (option string) :=
  if negb (Js.truthy gistId) || negb (Js.truthy githubToken) then
    ([], inl (Error config_required_message))
  else
    let request :=
      saveSources_request sources (default "" gistId) (default "" githubToken) in
    ([request],
     match saveSources_try (remote request) with
     | inl e => inl (saveSources_catch e)
     | inr value => inr value
     end).

(* ===================================================================== *)
(** ** The state of the [App] component                                   *)
(* ===================================================================== *)

Inductive AdminPanel : Type := PanelSources | PanelSettings.

Module App.

(** The [useState] cells that the callbacks below read or write. *)
Record State : Type := mkState {
  isAdmin : bool;
  sources : list Source.t;
  draftSources : list Source.t;
  isFetchingSources : bool;
  sourcesEtag : option string;
  isLoading : bool;
  error : option string;
  adminConfig : option AdminConfig.t;
  toasts : list ToastMessage.t;
  adminMessages : list ChatMessage.t;
  guestMessages : list ChatMessage.t;
  adminActivePanel : AdminPanel
}.

(** The state a freshly mounted component starts from; the admin's
    configuration and conversation come from local storage. *)
Definition initial (config : option AdminConfig.t) (stored : list ChatMessage.t) : State :=
  {| isAdmin := false; sources := []; draftSources := [];
     isFetchingSources := true; sourcesEtag := None;
     isLoading := false; error := None; adminConfig := config;
     toasts := []; adminMessages := stored; guestMessages := [];
     adminActivePanel := PanelSources |}.

Definition setSources (v : list Source.t) (st : State) : State :=
  mkState (isAdmin st) v (draftSources st) (isFetchingSources st)
    (sourcesEtag st) (isLoading st) (error st) (adminConfig st) (toasts st)
    (adminMessages st) (guestMessages st) (adminActivePanel st).

Definition setDraftSources (v : list Source.t) (st : State) : State :=
  mkState (isAdmin st) (sources st) v (isFetchingSources st)
    (sourcesEtag st) (isLoading st) (error st) (adminConfig st) (toasts st)
    (adminMessages st) (guestMessages st) (adminActivePanel st).

Definition setIsFetchingSources (v : bool) (st : State) : State :=
  mkState (isAdmin st) (sources st) (draftSources st) v
    (sourcesEtag st) (isLoading st) (error st) (adminConfig st) (toasts st)
    (adminMessages st) (guestMessages st) (adminActivePanel st).

Definition setSourcesEtag (v : option string) (st : State) : State :=
  mkState (isAdmin st) (sources st) (draftSources st) (isFetchingSources st)
    v (isLoading st) (error st) (adminConfig st) (toasts st)
    (adminMessages st) (guestMessages st) (adminActivePanel st).

Definition setIsLoading (v : bool) (st : State) : State :=
  mkState (isAdmin st) (sources st) (draftSources st) (isFetchingSources st)
    (sourcesEtag st) v (error st) (adminConfig st) (toasts st)
    (adminMessages st) (guestMessages st) (adminActivePanel st).

Definition setError (v : option string) (st : State) : State :=
  mkState (isAdmin st) (sources st) (draftSources st) (isFetchingSources st)
    (sourcesEtag st) (isLoading st) v (adminConfig st) (toasts st)
    (adminMessages st) (guestMessages st) (adminActivePanel st).

Definition setToasts (v : list ToastMessage.t) (st : State) : State :=
  mkState (isAdmin st) (sources st) (draftSources st) (isFetchingSources st)
    (sourcesEtag st) (isLoading st) (error st) (adminConfig st) v
    (adminMessages st) (guestMessages st) (adminActivePanel st).

Definition setAdminMessages (v : list ChatMessage.t) (st : State) : State :=
  mkState (isAdmin st) (sources st) (draftSources st) (isFetchingSources st)
    (sourcesEtag st) (isLoading st) (error st) (adminConfig st) (toasts st)
    v (guestMessages st) (adminActivePanel st).

Definition setGuestMessages (v : list ChatMessage.t) (st : State) : State :=
  mkState (isAdmin st) (sources st) (draftSources st) (isFetchingSources st)
    (sourcesEtag st) (isLoading st) (error st) (adminConfig st) (toasts st)
    (adminMessages st) v (adminActivePanel st).

Definition setAdminActivePanel (v : AdminPanel) (st : State) : State :=
  mkState (isAdmin st) (sources st) (draftSources st) (isFetchingSources st)
    (sourcesEtag st) (isLoading st) (error st) (adminConfig st) (toasts st)
    (adminMessages st) (guestMessages st) v.

(** [const messages = isAdmin ? adminMessages : guestMessages] *)
Definition messages (st : State) : list ChatMessage.t :=
  if isAdmin st then adminMessages st else guestMessages st.

End App.

(** What a callback did to the outside world. *)
Inductive Call : Type :=
| Fetch (request : Http.Request)
| Query (question : string) (sources : list Source.t).

(** A callback run to completion: the calls it made, the state it left. *)
Definition Step : Type := list Call * App.State.

(** The answering service, [querySources] of [services/geminiService]. *)
Module Answer.
Record t : Type := mk { answer : string; citations : list Citation.raw }.
End Answer.

Definition Answering : Type := string -> list Source.t -> Js.result Answer.t.

(* ===================================================================== *)
(** ** [App.tsx]: the callbacks                                           *)
(* ===================================================================== *)

Definition PUBLIC_GIST_ID : string := "66334a5aafde2cd3ed37c02a8379189b".

(** [addToast]; [now] is [Date.now()]. *)
Definition addToast (message : string) (type : ToastType) (now : Z)
    (st : App.State) : App.State :=
  App.setToasts (App.toasts st ++ [ToastMessage.mk now message type]) st.

Definition initial_download_message : string :=
  "Không thể tải xuống nội dung nguồn ban đầu.".

Definition load_failed_message : string :=
  "Không thể tải các nguồn dữ liệu từ Gist đã cấu hình. Ứng dụng sẽ sử dụng dữ liệu mẫu mặc định.".

(** The description [fetchInitialSources] shows for a caught error. *)
Definition load_error_description (err : Exception) : string :=
  match err with
  | GistNotFoundError _ => not_found_message PUBLIC_GIST_ID
  | Error m => if Js.includes m "API" then rate_limit_message else load_failed_message
  end.

(** The [catch] clause of [fetchInitialSources]. *)
Definition fetchInitialSources_catch (err : Exception) (st : App.State) : App.State :=
  App.setDraftSources DEFAULT_SOURCES
    (App.setSources DEFAULT_SOURCES
       (App.setError (Some (load_error_description err)) st)).

Definition fetchInitialSources (remote : Http.Remote) (st : App.State) : Step :=
  let st := App.setError None (App.setIsFetchingSources true st) in
  let '(requests, outcome) := getSources remote (Some PUBLIC_GIST_ID) None in
  let st :=
    match outcome with
    | inr (Fetched.mk status (Some fetchedSources) newEtag) =>
        if status =? 200 then
          App.setSourcesEtag newEtag
            (App.setDraftSources fetchedSources (App.setSources fetchedSources st))
        else fetchInitialSources_catch (Error initial_download_message) st
    | inr (Fetched.mk _ None _) =>
        fetchInitialSources_catch (Error initial_download_message) st
    | inl err => fetchInitialSources_catch err st
    end in
  (map Fetch requests, App.setIsFetchingSources false st).

(** [hasUnsavedChanges]: the two serialisations differ. *)
Definition hasUnsavedChanges (st : App.State) : bool :=
  negb (String.eqb (Stringify.sources (App.sources st))
                   (Stringify.sources (App.draftSources st))).

Definition updated_for_admin_message : string :=
  "Nguồn dữ liệu đã được cập nhật bởi một quản trị viên khác.".

Definition updated_for_guest_message : string :=
  "Nguồn dữ liệu đã được cập nhật. Cuộc trò chuyện của bạn đã được làm mới.".

(** One firing of the polling interval. *)
Definition pollingTick (remote : Http.Remote) (now : Z) (st : App.State) : Step :=
  if hasUnsavedChanges st || negb (Js.truthy (App.sourcesEtag st)) then ([], st)
  else
    let '(requests, outcome) :=
      getSources remote (Some PUBLIC_GIST_ID) (App.sourcesEtag st) in
    (map Fetch requests,
     match outcome with
     | inr (Fetched.mk status (Some newSources) newEtag) =>
         if status =? 200 then
           let st' := App.setSourcesEtag newEtag (App.setSources newSources st) in
           if App.isAdmin st then
             addToast updated_for_admin_message info now
               (App.setDraftSources newSources st')
           else
             addToast updated_for_guest_message info now
               (App.setGuestMessages [] st')
         else st
     | inr (Fetched.mk _ None _) => st
     | inl _ => st
     end).

Definition config_missing_message : string :=
  "Lỗi: Không tìm thấy cấu hình lưu trữ. Vui lòng định cấu hình GitHub Token trong tab Cấu hình.".

Definition saved_message : string :=
  "Các thay đổi đã được lưu và công khai cho tất cả người dùng.".

(** [!adminConfig || !adminConfig.githubToken] *)
Definition credential_missing (config : option AdminConfig.t) : bool :=
  negb (Js.truthy (AdminConfig.githubToken <$> config)).

Definition handleSaveChanges (remote : Http.Remote) (now : Z) (st : App.State) : Step :=
  if credential_missing (App.adminConfig st) then
    ([], App.setAdminActivePanel PanelSettings
           (addToast config_missing_message error now st))
  else
    let '(requests, outcome) :=
      saveSources remote (App.draftSources st) (Some PUBLIC_GIST_ID)
        (AdminConfig.githubToken <$> App.adminConfig st) in
    (map Fetch requests,
     match outcome with
     | inr newEtag =>
         addToast saved_message success now
           (App.setSourcesEtag newEtag (App.setSources (App.draftSources st) st))
     | inl err =>
         addToast ("Đã xảy ra lỗi khi lưu thay đổi: " +:+ message_of err) error now st
     end).

(** [confirmed] is the answer to [window.confirm], asked only when there
    are unsaved changes. *)
Definition handleCancelChanges (confirmed : bool) (st : App.State) : App.State :=
  if hasUnsavedChanges st && confirmed then App.setDraftSources (App.sources st) st
  else if negb (hasUnsavedChanges st) then App.setDraftSources (App.sources st) st
  else st.

(** The id [addSource] gives to a source created at time [now]. *)
Definition source_id_at (now : Z) : string := "source-" +:+ Js.show now.

Definition addSource (title : string) (content : Content.t) (fileName : option string)
    (now : Z) (st : App.State) : App.State :=
  if negb (App.isAdmin st) then st
  else
    let newSource := Source.mk (source_id_at now) title fileName content in
    App.setDraftSources (App.draftSources st ++ [newSource]) st.

Definition deleteSource (id : string) (st : App.State) : App.State :=
  if negb (App.isAdmin st) then st
  else
    App.setDraftSources
      (filter (fun source => Source.id source <> id) (App.draftSources st)) st.

Definition no_sources_message : string :=
  "Không có nguồn nào được tải lên. Vui lòng liên hệ quản trị viên.".

Definition unknown_error_message : string := "Đã xảy ra lỗi không xác định.".

Definition unknown_source_title : string := "Nguồn không xác định".

(** [x || fallback] for a possibly missing string. *)
Definition or_else (x : option string) (fallback : string) : string :=
  match x with
  | Some (String _ _ as s) => s
  | _ => fallback
  end.

(** The body of the [map] over the raw citations. *)
Definition resolveCitation (sources : list Source.t) (cit : Citation.raw) : Citation.t :=
  let source :=
    find (fun s => String.eqb (Source.id s) (Citation.rawSourceId cit)) sources in
  {| Citation.sourceId := Citation.rawSourceId cit;
     Citation.quote := Citation.rawQuote cit;
     Citation.sourceTitle := or_else (Source.title <$> source) unknown_source_title |}.

(** Appending to the log of the role the callback was created for. *)
Definition appendMessage (admin : bool) (m : ChatMessage.t) (st : App.State) : App.State :=
  if admin then App.setAdminMessages (App.adminMessages st ++ [m]) st
  else App.setGuestMessages (App.guestMessages st ++ [m]) st.

(** The [catch] clause of [sendMessage]. *)
Definition sendMessage_catch (message : string) (st : App.State) : App.State :=
  App.setError (Some (or_else (Some message) unknown_error_message)) st.

(** [sendMessage]; [now] is the clock when the question is sent, [later]
    the clock when the answer has arrived. *)
Definition sendMessage (querySources : Answering) (now later : Z) (question : string)
    (st : App.State) : Step :=
  let sources := App.sources st in
  let admin := App.isAdmin st in
  let userMessage := ChatMessage.mk ("msg-" +:+ Js.show now) user question None in
  let st1 := App.setIsLoading true
               (appendMessage admin userMessage (App.setError None st)) in
  let '(calls, st2) :=
    if (length sources =? 0)%nat then
      ([], sendMessage_catch no_sources_message st1)
    else
      ([Query question sources],
       match querySources question sources with
       | Js.Throws m => sendMessage_catch m st1
       | Js.Returns (Answer.mk answer rawCitations) =>
           let citations := map (resolveCitation sources) rawCitations in
           let modelMessage :=
             ChatMessage.mk ("msg-" +:+ Js.show (later + 1)) model answer (Some citations) in
           appendMessage admin modelMessage st1
       end) in
  (calls, App.setIsLoading false st2).

(* ===================================================================== *)
(** ** [services/storageService.ts]: the connection test                  *)
(* ===================================================================== *)

Module Probe.

(** The request of the connection test: a request with its [cache]
    option. *)
Record Request : Type := mkRequest {
  request : Http.Request;
  cache : string
}.

(** The response as the connection test reads it: besides the status,
    its [statusText] and its [X-OAuth-Scopes] header. *)
Record Response : Type := mkResponse {
  response : Http.Response;
  statusText : string;
  scopes : option string
}.

Inductive Outcome : Type :=
| Rejected (message : string)
| Resolved (response : Response).

Definition Remote : Type := Request -> Outcome.

(** What [testStorageConnection] resolves to. *)
Record Result : Type := mkResult { success : bool; message : string }.

End Probe.

Definition both_required_message : string :=
  "Cả Gist ID và GitHub Personal Access Token đều là bắt buộc.".

Definition probe_not_found_message (gistId : string) : string :=
  "Không tìm thấy Gist với ID '" +:+ gistId +:+ "'.".

Definition token_invalid_message : string := "Token không hợp lệ hoặc đã hết hạn.".

Definition probe_api_error_message (statusText : string) : string :=
  "Lỗi API GitHub: " +:+ statusText.

Definition scope_missing_message : string :=
  "Kết nối thành công nhưng Token thiếu quyền " +:+
  String Json.dquote ("gist" +:+ String Json.dquote
    " cần thiết để lưu các thay đổi.").

Definition connected_message : string :=
  "Kết nối thành công! Gist hợp lệ và Token có quyền ghi.".

(** The [catch] clause of [testStorageConnection]. *)
Definition connection_failed (message : string) : Probe.Result :=
  Probe.mkResult false ("Kết nối thất bại: " +:+ message).

Definition testStorageConnection_request (gistId githubToken : string) : Probe.Request :=
  {| Probe.request :=
       {| Http.method := Http.GET;
          Http.url := GITHUB_API_BASE_URL +:+ "/" +:+ gistId;
          Http.headers :=
            [ ("Authorization", "token " +:+ githubToken);
              ("Accept", "application/vnd.github.v3+json") ];
          Http.body := None |};
     Probe.cache := "no-cache" |}.

Definition testStorageConnection_try (gistId : string) (outcome : Probe.Outcome)
    : Probe.Result :=
  match outcome with
  | Probe.Rejected m => connection_failed m
  | Probe.Resolved r =>
      let status := Http.status (Probe.response r) in
      if negb (Http.ok (Probe.response r)) then
        if status =? 404 then connection_failed (probe_not_found_message gistId)
        else if status =? 401 then connection_failed token_invalid_message
        else connection_failed (probe_api_error_message (Probe.statusText r))
      else if negb (Js.truthy (Probe.scopes r))
              || negb (Js.includes (default "" (Probe.scopes r)) "gist") then
        Probe.mkResult false scope_missing_message
      else Probe.mkResult true connected_message
  end.

Definition testStorageConnection (remote : Probe.Remote)
    (gistId githubToken : option string) : list Probe.Request * Probe.Result :=
  if negb (Js.truthy gistId) || negb (Js.truthy githubToken) then
    ([], Probe.mkResult false both_required_message)
  else
    let request :=
      testStorageConnection_request (default "" gistId) (default "" githubToken) in
    ([request], testStorageConnection_try (default "" gistId) (remote request)).

(* ===================================================================== *)
(** ** [App.tsx]: the rest of the component                               *)
(* ===================================================================== *)

Module Note.
Record t : Type := mk { id : string; content : string; sourceMessageId : string }.
End Note.

Inductive MobilePanel : Type := MobileChat | MobileSources | MobileNotes.

Module Ui.

(** The component with the cells that the callbacks above leave out. *)
Record State : Type := mkState {
  app : App.State;
  isLoginModalOpen : bool;
  mobileActivePanel : MobilePanel;
  adminNotes : list Note.t;
  guestNotes : list Note.t
}.

Definition initial (config : option AdminConfig.t) (storedMessages : list ChatMessage.t)
    (storedNotes : list Note.t) : State :=
  {| app := App.initial config storedMessages;
     isLoginModalOpen := false;
     mobileActivePanel := MobileChat;
     adminNotes := storedNotes;
     guestNotes := [] |}.

Definition setApp (v : App.State) (st : State) : State :=
  mkState v (isLoginModalOpen st) (mobileActivePanel st) (adminNotes st) (guestNotes st).

Definition setLoginModalOpen (v : bool) (st : State) : State :=
  mkState (app st) v (mobileActivePanel st) (adminNotes st) (guestNotes st).

Definition setMobileActivePanel (v : MobilePanel) (st : State) : State :=
  mkState (app st) (isLoginModalOpen st) v (adminNotes st) (guestNotes st).

Definition setAdminNotes (v : list Note.t) (st : State) : State :=
  mkState (app st) (isLoginModalOpen st) (mobileActivePanel st) v (guestNotes st).

Definition setGuestNotes (v : list Note.t) (st : State) : State :=
  mkState (app st) (isLoginModalOpen st) (mobileActivePanel st) (adminNotes st) v.

(** [const notes = isAdmin ? adminNotes : guestNotes] *)
Definition notes (st : State) : list Note.t :=
  if App.isAdmin (app st) then adminNotes st else guestNotes st.

End Ui.

Definition setIsAdmin (v : bool) (st : App.State) : App.State :=
  App.mkState v (App.sources st) (App.draftSources st) (App.isFetchingSources st)
    (App.sourcesEtag st) (App.isLoading st) (App.error st) (App.adminConfig st)
    (App.toasts st) (App.adminMessages st) (App.guestMessages st)
    (App.adminActivePanel st).

(** [removeToast] *)
Definition removeToast (id : Z) (st : App.State) : App.State :=
  App.setToasts (filter (fun toast => ToastMessage.id toast <> id) (App.toasts st)) st.

(** [handleLoginAttempt] returns whether the login succeeded. *)
Definition handleLoginAttempt (username password : string) (st : Ui.State)
    : bool * Ui.State :=
  if String.eqb username "tinhocsaoviet" && String.eqb password "Saoviet1" then
    (true,
     Ui.setMobileActivePanel MobileSources
       (Ui.setApp
          (App.setDraftSources (App.sources (Ui.app st)) (setIsAdmin true (Ui.app st)))
          (Ui.setLoginModalOpen false st)))
  else (false, st).

(** [confirmed] is the answer to [window.confirm]. *)
Definition handleLogout (confirmed : bool) (st : Ui.State) : Ui.State :=
  if confirmed then
    Ui.setMobileActivePanel MobileChat
      (Ui.setGuestNotes []
         (Ui.setApp (App.setGuestMessages [] (setIsAdmin false (Ui.app st))) st))
  else st.

(** The id [addNote] gives to a note created at time [now]. *)
Definition note_id_at (now : Z) : string := "note-" +:+ Js.show now.

Definition addNote (message : ChatMessage.t) (now : Z) (st : Ui.State) : Ui.State :=
  let admin := App.isAdmin (Ui.app st) in
  let currentNotes := if admin then Ui.adminNotes st else Ui.guestNotes st in
  if existsb (fun note => String.eqb (Note.sourceMessageId note) (ChatMessage.id message))
       currentNotes
  then st
  else
    let newNote :=
      Note.mk (note_id_at now) (ChatMessage.text message) (ChatMessage.id message) in
    if admin then Ui.setAdminNotes (newNote :: Ui.adminNotes st) st
    else Ui.setGuestNotes (newNote :: Ui.guestNotes st) st.

Definition deleteNote (id : string) (st : Ui.State) : Ui.State :=
  if App.isAdmin (Ui.app st) then
    Ui.setAdminNotes (filter (fun note => Note.id note <> id) (Ui.adminNotes st)) st
  else
    Ui.setGuestNotes (filter (fun note => Note.id note <> id) (Ui.guestNotes st)) st.

Definition startNewChat (confirmed : bool) (st : Ui.State) : Ui.State :=
  if confirmed then
    Ui.setMobileActivePanel MobileChat
      (Ui.setApp
         (if App.isAdmin (Ui.app st) then App.setAdminMessages [] (Ui.app st)
          else App.setGuestMessages [] (Ui.app st))
         st)
  else st.

(** The effect that decides whether the admin is asked to configure a
    token: [isAdmin && (!adminConfig || !adminConfig.githubToken)]. *)
Definition isConfigNeeded (st : App.State) : bool :=
  App.isAdmin st && credential_missing (App.adminConfig st).

(* ===================================================================== *)
(** ** Vocabulary of the statements                                       *)
(* ===================================================================== *)

(** The message that echoes the question asked at time [now]. *)
Definition userMessage_at (now : Z) (question : string) : ChatMessage.t :=
  ChatMessage.mk ("msg-" +:+ Js.show now) user question None.

(** The notification of a poll that found a new collection. *)
Definition update_toast (now : Z) (admin : bool) : ToastMessage.t :=
  ToastMessage.mk now
    (if admin then updated_for_admin_message else updated_for_guest_message) info.

(** The initial load succeeds when [getSources] resolves with status 200
    and a collection; every other outcome is handled by the [catch]
    clause. *)
Definition load_succeeds (remote : Http.Remote) : Prop :=
  exists fetched newEtag,
    snd (getSources remote (Some PUBLIC_GIST_ID) None)
    = inr (Fetched.mk 200 (Some fetched) newEtag).

(** What the [catch] clause of the initial load is entered with. *)
Definition load_failure (remote : Http.Remote) : Exception :=
  match snd (getSources remote (Some PUBLIC_GIST_ID) None) with
  | inl err => err
  | inr _ => Error initial_download_message
  end.

(** The payloads for which [getSources] falls back on the built-in
    sources: no file map, no [sources.json] in it, a file that parses to
    something that is not an array, a file that parses to the empty
    array. *)
Inductive FallsBack : Gist.Data -> Prop :=
| NoFiles (m : option string) :
    FallsBack (Gist.mkData None m)
| FileMissing (files : gmap string Gist.File) (m : option string) :
    files !! FILENAME = None ->
    FallsBack (Gist.mkData (Some files) m)
| NotASequence (files : gmap string Gist.File) (m : option string) (v : JsonValue) :
    files !! FILENAME = Some (Gist.mkFile (Js.Returns v)) ->
    (forall elements, v <> JArray elements) ->
    FallsBack (Gist.mkData (Some files) m)
| EmptySequence (files : gmap string Gist.File) (m : option string) :
    files !! FILENAME = Some (Gist.mkFile (Js.Returns (JArray []))) ->
    FallsBack (Gist.mkData (Some files) m).

(** No credential is stored: there is no configuration, or its token is
    the empty string. *)
Definition NoCredential (st : App.State) : Prop :=
  match App.adminConfig st with
  | None => True
  | Some config => AdminConfig.githubToken config = ""
  end.

(* ===================================================================== *)
(** ** Sessions and stores of the examples                                *)
(* ===================================================================== *)

(** An admin session in sync with the store, holding one source. *)
Definition published_source : Source.t :=
  Source.mk (source_id_at 1690000000000) "Old" (Some "old.txt")
    (Content.mk "text/plain" "old").

Definition admin_session : App.State :=
  App.mkState true [published_source] [published_source] false (Some "W/1")
    false None None [] [] [] PanelSources.

(** The same session after a first source was added at some millisecond. *)
Definition same_millisecond : Z := 1700000000000.

Definition once_added : App.State :=
  addSource "A" (Content.mk "text/plain" "a") None same_millisecond admin_session.

Definition untitled_source : Source.t :=
  Source.mk (source_id_at 1695000000000) "" None (Content.mk "text/plain" "body").

(** An admin session after an emptied collection was saved. *)
Definition emptied_session : App.State :=
  App.mkState true [] [] false (Some "W/3") false None
    (Some (AdminConfig.mk "ghp_token" None)) [] [] [] PanelSources.

(** The clock when a question is sent, and when its answer arrives. *)
Definition asked : Z := 1700000000000.
Definition answered : Z := 1700000000900.

(** The service used in the examples: one citation, of an id that the
    collection does not hold. *)
Definition stale_answering : Answering :=
  fun _ _ => Js.Returns (Answer.mk "answer" [Citation.mkRaw "source-gone" "q"]).

Definition answering_with (status : Z) (tag : option string) (data : Gist.Data)
    : Http.Remote :=
  fun _ => Http.Resolved (Http.mkResponse status tag (Js.Returns data)).

Definition no_document : Gist.Data := Gist.mkData None (Some "Not Found").

Definition document_of (v : JsonValue) : Gist.Data :=
  Gist.mkData (Some {[ FILENAME := Gist.mkFile (Js.Returns v) ]}) None.

(** A store that answers every request with the given status. *)
Definition failing_with (status : Z) : Http.Remote :=
  answering_with status None no_document.

Definition fresh_source : Source.t :=
  Source.mk (source_id_at 1700000010000) "New" None (Content.mk "text/plain" "new").

Definition pushing_store : Http.Remote :=
  answering_with 200 (Some "W/2") (document_of (JArray [fresh_source])).

(** A source added to the draft and not saved yet. *)
Definition unsaved_source : Source.t :=
  Source.mk (source_id_at same_millisecond) "A" None (Content.mk "text/plain" "a").

(** An admin with a stored token and an unsaved addition. *)
Definition configured_session : App.State :=
  App.mkState true [published_source] [published_source; unsaved_source] false
    (Some "W/1") false None (Some (AdminConfig.mk "ghp_token" None)) [] [] []
    PanelSources.

(** A guest in sync with the store. *)
Definition guest_session : App.State :=
  App.mkState false [published_source] [published_source] false (Some "W/1")
    false None None [] [] [] PanelSources.

(** Stores that accept a write, refuse it, and report no change. *)
Definition accepting_store : Http.Remote := answering_with 200 (Some "W/4") no_document.

Definition refusing_store : Http.Remote :=
  answering_with 422 None (Gist.mkData None (Some "Validation Failed")).

Definition unchanged_store : Http.Remote := answering_with 304 None no_document.

(** At most one note per message: no two notes of a list come from the
    same message. *)
Definition one_note_per_message (notes : list Note.t) : Prop :=
  NoDup (map Note.sourceMessageId notes).

Definition NotesWellFormed (st : Ui.State) : Prop :=
  one_note_per_message (Ui.adminNotes st) /\ one_note_per_message (Ui.guestNotes st).

(** A guest, and an admin with an unsaved addition, with no notes. *)
Definition ui_guest : Ui.State := Ui.mkState guest_session false MobileChat [] [].

Definition ui_dirty_admin : Ui.State :=
  Ui.mkState configured_session false MobileSources [] [].

Definition an_answer : ChatMessage.t :=
  ChatMessage.mk ("msg-" +:+ Js.show (answered + 1)) model "answer" (Some []).

(** A store whose answer to the connection test grants the given scopes. *)
Definition granting (status : Z) (scopes : option string) : Probe.Remote :=
  fun _ =>
    Probe.Resolved
      (Probe.mkResponse (Http.mkResponse status None (Js.Returns no_document))
         "OK" scopes).

(** The source of [published_source] as an object whose properties were
    created in the order of the built-in literals (id, title, fileName,
    content): the same values in another property order. *)
Definition stored_source : Source.t :=
  Source.make (source_id_at 1690000000000) "Old" (Some ("old.txt", Slot2))
    (Content.mk "text/plain" "old") IdTitleContent.

(** An admin session whose draft holds the same values as the published
    collection, in an object created by [addSource]. *)
Definition recreated_session : App.State :=
  App.mkState true [stored_source] [published_source] false (Some "W/1")
    false None None [] [] [] PanelSources.

(** A second source with the id of [untitled_source], with a title. *)
Definition titled_twin : Source.t :=
  Source.mk (source_id_at 1695000000000) "Titled" None (Content.mk "text/plain" "twin").

(** A stored file whose text is not JSON; [message] is what [JSON.parse]
    throws. *)
Definition unparsable_document (message : string) : Gist.Data :=
  Gist.mkData (Some {[ FILENAME := Gist.mkFile (Js.Throws message) ]}) None.

(** An admin with notes on a question and on its answer, and a guest
    note; and a later answer that nobody has noted yet. *)
Definition a_question : ChatMessage.t :=
  ChatMessage.mk ("msg-" +:+ Js.show asked) user "x" None.

Definition a_later_answer : ChatMessage.t :=
  ChatMessage.mk "msg-1700000040001" model "later" (Some []).

Definition ui_with_notes : Ui.State :=
  Ui.mkState admin_session false MobileChat
    [Note.mk (note_id_at 1700000002000) "x" (ChatMessage.id a_question);
     Note.mk (note_id_at 1700000001000) "answer" (ChatMessage.id an_answer)]
    [Note.mk (note_id_at 1700000003000) "guest answer" "msg-1690000000001"].

(** A session that shows the notification of a refused save. *)
Definition session_with_toast : App.State :=
  snd (handleSaveChanges refusing_store 1700000030000 configured_session).

(* ===================================================================== *)
(** ** Properties: the serialisation is uniquely decodable                *)
(* ===================================================================== *)

Module JsonFacts.
Import Json.

(** [String.append] does not unfold under [simpl] once stdpp is loaded;
    its equations are used as rewrite rules instead. *)
Lemma append_nil_l (b : string) : "" +:+ b = b.
Proof. reflexivity. Qed.

Lemma append_cons (x : ascii) (a b : string) :
  String x a +:+ b = String x (a +:+ b).
Proof. reflexivity. Qed.

Lemma append_assoc (a b c : string) : (a +:+ b) +:+ c = a +:+ (b +:+ c).
Proof.
  induction a as [|x a IH]; [reflexivity|].
  rewrite !append_cons. now rewrite IH.
Qed.

Lemma append_empty_r (a : string) : a +:+ "" = a.
Proof.
  induction a as [|x a IH]; [reflexivity|].
  rewrite append_cons. now rewrite IH.
Qed.

Ltac flatten_append :=
  repeat (rewrite append_assoc || rewrite append_cons || rewrite append_nil_l).
Ltac flatten_append_in H :=
  repeat (rewrite append_assoc in H || rewrite append_cons in H
          || rewrite append_nil_l in H).

Lemma unescape_escape_char (c : ascii) (r : string) :
  unescape_char (escape_char c +:+ r) = Some (c, r).
Proof.
  destruct c as [[] [] [] [] [] [] [] []]; reflexivity.
Qed.

(** An escaped string followed by the closing quote is uniquely
    decodable, whatever follows it. *)
Lemma escape_closed_inj (a b r1 r2 : string) :
  escape a +:+ String dquote r1 = escape b +:+ String dquote r2 ->
  a = b /\ r1 = r2.
Proof.
  revert b; induction a as [|x a IH]; intros [|y b] H;
    cbn [escape] in H; rewrite ?append_nil_l, ?append_assoc in H.
  - now inversion H.
  - apply (f_equal unescape_char) in H.
    rewrite unescape_escape_char in H. discriminate H.
  - apply (f_equal unescape_char) in H.
    rewrite unescape_escape_char in H. discriminate H.
  - apply (f_equal unescape_char) in H.
    rewrite !unescape_escape_char in H.
    injection H as -> H. destruct (IH _ H) as [-> ->]. easy.
Qed.

Lemma quote_inj_framed (a b r1 r2 : string) :
  quote a +:+ r1 = quote b +:+ r2 -> a = b /\ r1 = r2.
Proof.
  unfold quote. intros H. flatten_append_in H.
  injection H as H. now apply escape_closed_inj.
Qed.

End JsonFacts.

Module StringifyFacts.
Import Json JsonFacts Stringify.

Ltac peel H :=
  repeat
    (flatten_append_in H;
     first
       [ apply quote_inj_framed in H; destruct H as [? H]
       | apply escape_closed_inj in H; destruct H as [? H]
       | injection H as H ]).

Lemma append_inv_head (a r1 r2 : string) : a +:+ r1 = a +:+ r2 -> r1 = r2.
Proof.
  induction a as [|x a IH]; [easy|].
  rewrite !append_cons. intros H. injection H as H. now apply IH.
Qed.

(** *** A list of pieces, joined by a separator and closed by a stop

    When the pieces are uniquely decodable, no piece begins like the
    stop, and the separator and the stop begin differently, the joined
    text determines the list, whatever follows the stop. *)
Section Joined.

Context {A : Type} (f : A -> string) (sep stop : string).

Hypothesis f_framed :
  forall a b r1 r2, f a +:+ r1 = f b +:+ r2 -> a = b /\ r1 = r2.
Hypothesis stop_not_piece : forall a r1 r2, stop +:+ r1 <> f a +:+ r2.
Hypothesis stop_not_sep : forall r1 r2, stop +:+ r1 <> sep +:+ r2.

(** What follows the first piece. *)
Definition after_first (rest : list A) (r : string) : string :=
  match rest with
  | [] => stop +:+ r
  | _ => sep +:+ String.concat sep (map f rest) +:+ stop +:+ r
  end.

Lemma joined_cons (a : A) (rest : list A) (r : string) :
  String.concat sep (map f (a :: rest)) +:+ stop +:+ r = f a +:+ after_first rest r.
Proof.
  destruct rest as [|b rest]; cbn [map String.concat after_first]; [reflexivity|].
  now rewrite !append_assoc.
Qed.

Lemma joined_inj_framed (l1 l2 : list A) (r1 r2 : string) :
  String.concat sep (map f l1) +:+ stop +:+ r1
  = String.concat sep (map f l2) +:+ stop +:+ r2 ->
  l1 = l2 /\ r1 = r2.
Proof.
  revert l2; induction l1 as [|x xs IH]; intros [|y ys] H.
  - cbn [map String.concat] in H. rewrite !append_nil_l in H.
    apply append_inv_head in H. easy.
  - rewrite joined_cons in H. cbn [map String.concat] in H.
    rewrite append_nil_l in H. now apply stop_not_piece in H.
  - rewrite joined_cons in H. cbn [map String.concat] in H.
    rewrite append_nil_l in H. symmetry in H. now apply stop_not_piece in H.
  - rewrite !joined_cons in H. apply f_framed in H. destruct H as [-> H].
    destruct xs as [|x' xs], ys as [|y' ys]; cbn [after_first] in H.
    + apply append_inv_head in H. now subst.
    + now apply stop_not_sep in H.
    + symmetry in H. now apply stop_not_sep in H.
    + apply append_inv_head in H. destruct (IH _ H) as [-> ->]. easy.
Qed.

End Joined.

(** *** The compact form *)

Lemma starts_differently (x y : ascii) (a b : string) :
  x <> y -> String x a <> String y b.
Proof. intros Hxy H. injection H as H _. contradiction. Qed.

Lemma member_starts_with_quote (key value : string) :
  exists rest, member key value = String dquote rest.
Proof. unfold member, quote. rewrite append_cons. eauto. Qed.

Lemma member_inj_framed (k1 k2 v1 v2 r1 r2 : string) :
  member k1 v1 +:+ r1 = member k2 v2 +:+ r2 ->
  k1 = k2 /\ v1 +:+ r1 = v2 +:+ r2.
Proof.
  unfold member. intros H. rewrite !append_assoc in H.
  apply quote_inj_framed in H. destruct H as [-> H].
  rewrite !append_cons, !append_nil_l in H. injection H as H. easy.
Qed.

Lemma string_member_inj_framed (p q : string * string) (r1 r2 : string) :
  member (fst p) (quote (snd p)) +:+ r1 = member (fst q) (quote (snd q)) +:+ r2 ->
  p = q /\ r1 = r2.
Proof.
  destruct p as [k1 v1], q as [k2 v2]. cbn [fst snd]. intros H.
  apply member_inj_framed in H. destruct H as [-> H].
  apply quote_inj_framed in H. destruct H as [-> ->]. easy.
Qed.

Lemma content_properties_inj (c1 c2 : Content.t) :
  Content.properties c1 = Content.properties c2 -> c1 = c2.
Proof.
  destruct c1 as [m1 d1 []], c2 as [m2 d2 []]; cbn; intros H;
    try discriminate H; injection H; intros; subst; reflexivity.
Qed.

Lemma object_inj_framed {A : Type} (f : A -> string) (l1 l2 : list A) (r1 r2 : string) :
  (forall a b s1 s2, f a +:+ s1 = f b +:+ s2 -> a = b /\ s1 = s2) ->
  (forall a, exists rest, f a = String dquote rest) ->
  object (map f l1) +:+ r1 = object (map f l2) +:+ r2 ->
  l1 = l2 /\ r1 = r2.
Proof.
  intros Hframed Hquote H. unfold object in H.
  rewrite !append_cons, !append_nil_l, !append_assoc in H. injection H as H.
  apply (joined_inj_framed f "," "}" Hframed) in H; [exact H | |].
  - intros a s1 s2 Heq. destruct (Hquote a) as [rest Hrest].
    rewrite Hrest, !append_cons in Heq. discriminate Heq.
  - intros s1 s2 Heq. rewrite !append_cons in Heq. discriminate Heq.
Qed.

Lemma content_inj_framed (c1 c2 : Content.t) (r1 r2 : string) :
  content c1 +:+ r1 = content c2 +:+ r2 -> c1 = c2 /\ r1 = r2.
Proof.
  unfold content. intros H.
  apply object_inj_framed in H.
  - destruct H as [H ->]. split; [now apply content_properties_inj | reflexivity].
  - apply string_member_inj_framed.
  - intros a. apply member_starts_with_quote.
Qed.

Lemma content_starts_with_brace (c : Content.t) :
  exists rest, content c = String "{" rest.
Proof. unfold content, object. rewrite append_cons. eauto. Qed.

Lemma quote_starts_with_quote (s : string) : exists rest, quote s = String dquote rest.
Proof. unfold quote. eauto. Qed.

Lemma property_inj_framed (p q : Property) (r1 r2 : string) :
  property p +:+ r1 = property q +:+ r2 -> p = q /\ r1 = r2.
Proof.
  destruct p as [k1 v1 | k1 c1], q as [k2 v2 | k2 c2]; cbn [property]; intros H;
    apply member_inj_framed in H; destruct H as [-> H].
  - apply quote_inj_framed in H. destruct H as [-> ->]. easy.
  - exfalso. destruct (content_starts_with_brace c2) as [rest Hrest].
    rewrite Hrest in H. unfold quote in H. rewrite !append_cons in H. discriminate H.
  - exfalso. destruct (content_starts_with_brace c1) as [rest Hrest].
    rewrite Hrest in H. unfold quote in H. rewrite !append_cons in H. discriminate H.
  - apply content_inj_framed in H. destruct H as [-> ->]. easy.
Qed.

Lemma property_starts_with_quote (p : Property) :
  exists rest, property p = String dquote rest.
Proof. destruct p; apply member_starts_with_quote. Qed.

(** The properties in their order determine the source. *)
Lemma source_properties_inj (s1 s2 : Source.t) :
  Source.properties s1 = Source.properties s2 -> s1 = s2.
Proof.
  destruct s1 as [i1 t1 [[f1 []]|] c1 []], s2 as [i2 t2 [[f2 []]|] c2 []];
    cbn; intros H; try discriminate H; injection H; intros; subst; reflexivity.
Qed.

Lemma source_inj_framed (s1 s2 : Source.t) (r1 r2 : string) :
  source s1 +:+ r1 = source s2 +:+ r2 -> s1 = s2 /\ r1 = r2.
Proof.
  unfold source. intros H.
  apply object_inj_framed in H.
  - destruct H as [H ->]. split; [now apply source_properties_inj | reflexivity].
  - apply property_inj_framed.
  - apply property_starts_with_quote.
Qed.

Lemma source_starts_with_brace (s : Source.t) :
  exists rest, source s = String "{" rest.
Proof. unfold source, object. rewrite append_cons. eauto. Qed.

Lemma sources_inj (l1 l2 : list Source.t) :
  sources l1 = sources l2 -> l1 = l2.
Proof.
  unfold sources. intros H. rewrite !append_cons, !append_nil_l in H.
  injection H as H.
  assert (H' : String.concat "," (map source l1) +:+ "]" +:+ ""
               = String.concat "," (map source l2) +:+ "]" +:+ "") by exact H.
  apply (joined_inj_framed source "," "]" source_inj_framed) in H'; [easy | |].
  - intros a s1 s2 Heq. destruct (source_starts_with_brace a) as [rest Hrest].
    rewrite Hrest, !append_cons in Heq. discriminate Heq.
  - intros s1 s2 Heq. rewrite !append_cons in Heq. discriminate Heq.
Qed.

End StringifyFacts.

(* ===================================================================== *)
(** ** Properties: the dirty check                                        *)
(* ===================================================================== *)

Section DirtyCheck.

Lemma stringify_eqb_iff (l1 l2 : list Source.t) :
  String.eqb (Stringify.sources l1) (Stringify.sources l2) = true <-> l1 = l2.
Proof.
  rewrite String.eqb_eq. split.
  - apply StringifyFacts.sources_inj.
  - now intros ->.
Qed.

Lemma clean_iff_equal (st : App.State) :
  hasUnsavedChanges st = false <-> App.sources st = App.draftSources st.
Proof.
  unfold hasUnsavedChanges. rewrite negb_false_iff. apply stringify_eqb_iff.
Qed.

(** Exchanging two different neighbours is a change. *)
Lemma swap_differs (a b : Source.t) (before after : list Source.t) :
  a <> b -> before ++ a :: b :: after <> before ++ b :: a :: after.
Proof.
  intros Hab Heq. apply app_inv_head in Heq. congruence.
Qed.

(** Collections that differ in a value differ as collections of objects. *)
Lemma values_differ (l1 l2 : list Source.t) :
  map Source.values l1 <> map Source.values l2 -> l1 <> l2.
Proof. intros Hvalues Heq. apply Hvalues. now rewrite Heq. Qed.

(** C4, as amended. The session is dirty exactly when the published and
    the draft collection differ as ordered sequences of objects, the
    order of the properties of each object included (the comparison of
    the two serialisations decides exactly that).  So two collections of
    the same objects in the same order are never dirty; collections that
    differ structurally, in a value of a source, are always dirty; and
    the same sources in another order are dirty. *)
Theorem dirty_iff_objects_differ (st : App.State) :
  (hasUnsavedChanges st = true <-> App.sources st <> App.draftSources st) /\
  (App.sources st = App.draftSources st -> hasUnsavedChanges st = false) /\
  (map Source.values (App.sources st) <> map Source.values (App.draftSources st) ->
   hasUnsavedChanges st = true) /\
  (forall (a b : Source.t) (before after : list Source.t),
      a <> b ->
      App.sources st = before ++ a :: b :: after ->
      App.draftSources st = before ++ b :: a :: after ->
      hasUnsavedChanges st = true).
Proof.
  assert (Hiff : hasUnsavedChanges st = true <-> App.sources st <> App.draftSources st).
  { unfold hasUnsavedChanges. rewrite negb_true_iff. split.
    - intros Hneq Heq. apply stringify_eqb_iff in Heq. congruence.
    - intros Hdiff. apply not_true_is_false. intros Heq.
      apply Hdiff. now apply stringify_eqb_iff. }
  split; [exact Hiff|]. split; [|split].
  - apply clean_iff_equal.
  - intros Hvalues. apply Hiff. now apply values_differ.
  - intros a b before after Hab Hs Hd. apply Hiff. rewrite Hs, Hd.
    now apply swap_differs.
Qed.

(** Reordering counts as a change: a draft that exchanges two different
    neighbouring sources of the published collection is dirty. *)
Lemma reordered_is_dirty (st : App.State) (a b : Source.t)
    (before after : list Source.t) :
  a <> b ->
  App.sources st = before ++ a :: b :: after ->
  App.draftSources st = before ++ b :: a :: after ->
  hasUnsavedChanges st = true.
Proof.
  intros Hab Hs Hd. apply not_false_iff_true. intros Hclean.
  apply clean_iff_equal in Hclean. rewrite Hs, Hd in Hclean.
  now apply swap_differs in Hclean.
Qed.

(** Cancelling, once confirmed, makes the draft the published collection
    again; declined, it changes nothing. *)
Lemma cancel_restores (st : App.State) :
  let st' := handleCancelChanges true st in
  App.draftSources st' = App.sources st' /\ hasUnsavedChanges st' = false.
Proof.
  cbn zeta.
  assert (Hdraft : App.draftSources (handleCancelChanges true st)
                   = App.sources (handleCancelChanges true st)).
  { unfold handleCancelChanges.
    destruct (hasUnsavedChanges st); reflexivity. }
  split; [exact Hdraft|]. now apply clean_iff_equal.
Qed.

Lemma cancel_declined (st : App.State) :
  hasUnsavedChanges st = true -> handleCancelChanges false st = st.
Proof. unfold handleCancelChanges. now intros ->. Qed.

(** Appending a source to a clean draft makes the session dirty. *)
Lemma addSource_makes_dirty (st : App.State) (title : string)
    (content : Content.t) (fileName : option string) (now : Z) :
  App.isAdmin st = true ->
  hasUnsavedChanges st = false ->
  hasUnsavedChanges (addSource title content fileName now st) = true.
Proof.
  intros Hadmin Hclean. apply clean_iff_equal in Hclean.
  apply not_false_iff_true. intros Hclean'. apply clean_iff_equal in Hclean'.
  unfold addSource in Hclean'. rewrite Hadmin in Hclean'. cbn in Hclean'.
  rewrite Hclean in Hclean'. apply (f_equal length) in Hclean'.
  rewrite length_app in Hclean'. cbn in Hclean'. lia.
Qed.

End DirtyCheck.

(** C4, as stated, fails: the published and the draft collection hold one
    source each, with the same id, title, file name and content, and the
    session is dirty all the same, because the two objects list their
    properties in different orders. *)
Lemma equal_values_in_another_property_order_are_dirty :
  map Source.values (App.sources recreated_session)
  = map Source.values (App.draftSources recreated_session)
  /\ hasUnsavedChanges recreated_session = true.
Proof. split; vm_compute; reflexivity. Qed.

Lemma dirty_iff_objects_differ_witness :
  map Source.values (App.sources once_added)
  <> map Source.values (App.draftSources once_added)
  /\ hasUnsavedChanges once_added = true
  /\ (App.sources admin_session = App.draftSources admin_session
      /\ hasUnsavedChanges admin_session = false).
Proof.
  assert (Hvalues : map Source.values (App.sources once_added)
                    <> map Source.values (App.draftSources once_added))
    by (vm_compute; discriminate).
  split; [exact Hvalues|]. split.
  - exact (proj1 (proj2 (proj2 (dirty_iff_objects_differ once_added))) Hvalues).
  - split; [reflexivity|].
    exact (proj1 (proj2 (dirty_iff_objects_differ admin_session)) eq_refl).
Defined.

(* ===================================================================== *)
(** ** Properties: editing the draft                                      *)
(* ===================================================================== *)

Section Draft.

Variables (title : string) (content : Content.t) (fileName : option string).
Variable now : Z.

Lemma setDraftSources_same (st : App.State) :
  App.setDraftSources (App.draftSources st) st = st.
Proof. now destruct st. Qed.

Lemma setDraftSources_twice (l1 l2 : list Source.t) (st : App.State) :
  App.setDraftSources l2 (App.setDraftSources l1 st) = App.setDraftSources l2 st.
Proof. reflexivity. Qed.

(** Filtering out an id that no element carries keeps the list. *)
Lemma filter_absent_id (id : string) (l : list Source.t) :
  Forall (fun s => Source.id s <> id) l ->
  filter (fun source => Source.id source <> id) l = l.
Proof.
  induction 1 as [|s l Hs _ IH]; [reflexivity|].
  rewrite filter_cons_True by exact Hs. now rewrite IH.
Qed.

Lemma addSource_guest (st : App.State) :
  App.isAdmin st = false -> addSource title content fileName now st = st.
Proof. unfold addSource. now intros ->. Qed.

Lemma addSource_admin (st : App.State) :
  App.isAdmin st = true ->
  App.draftSources (addSource title content fileName now st)
  = App.draftSources st ++ [Source.mk (source_id_at now) title fileName content].
Proof. unfold addSource. now intros ->. Qed.

(** C5, as amended. When no source of the draft already carries the id
    that [addSource] generates, adding a source and then deleting that
    id gives back the state before the two calls (the draft has the
    same entries in the same order), for an admin and for a guest. *)
Theorem add_then_delete_restores (st : App.State) :
  Forall (fun s => Source.id s <> source_id_at now) (App.draftSources st) ->
  deleteSource (source_id_at now) (addSource title content fileName now st) = st.
Proof.
  intros Hfresh. unfold deleteSource, addSource.
  destruct (App.isAdmin st) eqn:Hadmin; cbn [negb].
  - cbn [App.isAdmin App.setDraftSources App.draftSources]. rewrite Hadmin. cbn [negb].
    rewrite filter_app, (filter_absent_id _ _ Hfresh).
    rewrite filter_cons_False by (cbn; tauto).
    rewrite filter_nil, app_nil_r.
    rewrite setDraftSources_twice. apply setDraftSources_same.
  - rewrite Hadmin. reflexivity.
Qed.

End Draft.

(** C5, as stated, fails: a second source added within the same
    millisecond gets the id of the first, and the deletion removes both,
    so the draft does not come back to what it was before the second
    call. *)
Lemma add_then_delete_loses_earlier_source :
  App.isAdmin once_added = true /\
  App.draftSources
    (deleteSource (source_id_at same_millisecond)
       (addSource "T" (Content.mk "text/plain" "d") None same_millisecond once_added))
  <> App.draftSources once_added.
Proof. split; [reflexivity | vm_compute; discriminate]. Qed.

Lemma add_then_delete_restores_witness :
  Forall (fun s => Source.id s <> source_id_at same_millisecond)
    (App.draftSources admin_session)
  /\ deleteSource (source_id_at same_millisecond)
       (addSource "T" (Content.mk "text/plain" "d") None same_millisecond admin_session)
     = admin_session.
Proof.
  assert (Hfresh : Forall (fun s => Source.id s <> source_id_at same_millisecond)
                     (App.draftSources admin_session)).
  { repeat constructor. vm_compute. discriminate. }
  split; [exact Hfresh|].
  exact (add_then_delete_restores "T" (Content.mk "text/plain" "d") None
           same_millisecond admin_session Hfresh).
Defined.

(* ===================================================================== *)
(** ** Properties: asking a question                                      *)
(* ===================================================================== *)

Section Citations.

Variable sources : list Source.t.
Variable cit : Citation.raw.

Lemma find_absent_id :
  Forall (fun s => Source.id s <> Citation.rawSourceId cit) sources ->
  find (fun s => String.eqb (Source.id s) (Citation.rawSourceId cit)) sources = None.
Proof.
  induction 1 as [|s l Hs _ IH]; [reflexivity|].
  cbn [find]. apply String.eqb_neq in Hs. now rewrite Hs.
Qed.

Lemma find_first_match (before after : list Source.t) (s : Source.t) :
  sources = before ++ s :: after ->
  Forall (fun x => Source.id x <> Citation.rawSourceId cit) before ->
  Source.id s = Citation.rawSourceId cit ->
  find (fun s => String.eqb (Source.id s) (Citation.rawSourceId cit)) sources = Some s.
Proof.
  intros -> Hbefore Hid.
  induction Hbefore as [|x l Hx _ IH]; cbn [app find].
  - rewrite Hid, String.eqb_refl. reflexivity.
  - apply String.eqb_neq in Hx. now rewrite Hx.
Qed.

(** A citation of an id that no source carries gets the fallback title
    and keeps its id and its quote. *)
Lemma resolveCitation_absent :
  Forall (fun s => Source.id s <> Citation.rawSourceId cit) sources ->
  resolveCitation sources cit
  = Citation.mk (Citation.rawSourceId cit) unknown_source_title (Citation.rawQuote cit).
Proof.
  intros Habsent. unfold resolveCitation. now rewrite find_absent_id.
Qed.

(** C10, as amended. When the source that the lookup finds for a
    citation (the first one of the collection with the cited id) has the
    empty title, the citation gets the fallback title, not the empty
    one: the fallback is taken whenever the title is falsy, not only
    when the lookup fails. *)
Theorem empty_title_falls_back (before after : list Source.t) (s : Source.t) :
  sources = before ++ s :: after ->
  Forall (fun x => Source.id x <> Citation.rawSourceId cit) before ->
  Source.id s = Citation.rawSourceId cit ->
  Source.title s = "" ->
  Citation.sourceTitle (resolveCitation sources cit) = unknown_source_title.
Proof.
  intros Hsplit Hbefore Hid Htitle. unfold resolveCitation.
  rewrite (find_first_match before after s Hsplit Hbefore Hid).
  cbn. now rewrite Htitle.
Qed.

End Citations.

(** C10, as stated, fails: a source with the cited id and the empty
    title is in the collection, but another source with the same id
    stands before it, and the citation gets the title of that one (two
    sources added within one millisecond share their id). *)
Lemma untitled_source_behind_a_titled_twin :
  In untitled_source [titled_twin; untitled_source]
  /\ Source.id untitled_source = Citation.rawSourceId (Citation.mkRaw "source-1695000000000" "q")
  /\ Source.title untitled_source = ""
  /\ Citation.sourceTitle
       (resolveCitation [titled_twin; untitled_source]
          (Citation.mkRaw "source-1695000000000" "q"))
     = "Titled"
  /\ "Titled" <> unknown_source_title.
Proof.
  split; [right; left; reflexivity|].
  split; [vm_compute; reflexivity|].
  split; [reflexivity|].
  split; [vm_compute; reflexivity | discriminate].
Qed.

Lemma empty_title_falls_back_witness :
  Citation.sourceTitle
    (resolveCitation [published_source; untitled_source]
       (Citation.mkRaw (source_id_at 1695000000000) "a quote"))
  = unknown_source_title.
Proof.
  apply (empty_title_falls_back [published_source; untitled_source]
           (Citation.mkRaw (source_id_at 1695000000000) "a quote")
           [published_source] [] untitled_source).
  - reflexivity.
  - repeat constructor. vm_compute. discriminate.
  - reflexivity.
  - reflexivity.
Defined.

Section Asking.

Variable querySources : Answering.
Variables now later : Z.
Variable question : string.

Lemma messages_appendMessage (m : ChatMessage.t) (st : App.State) :
  App.messages (appendMessage (App.isAdmin st) m st) = App.messages st ++ [m].
Proof. unfold appendMessage, App.messages. now destruct st as [[] ?]. Qed.

(** C1, as amended. With an empty published collection, asking a
    question calls nothing outside, records the no-sources error and
    appends no answer; the question itself is appended to the active
    log, which is otherwise as before, and the collections are left as
    they were. *)
Theorem ask_with_no_sources (st : App.State) :
  App.sources st = [] ->
  let '(calls, st') := sendMessage querySources now later question st in
  calls = [] /\
  App.error st' = Some no_sources_message /\
  App.messages st' = App.messages st ++ [userMessage_at now question] /\
  App.isLoading st' = false /\
  App.sources st' = [] /\
  App.draftSources st' = App.draftSources st.
Proof.
  intros Hempty. unfold sendMessage. rewrite Hempty. cbn [length Nat.eqb].
  unfold userMessage_at, appendMessage, App.messages.
  destruct st as [[] ?]; cbn in *; subst; repeat split; reflexivity.
Qed.

(** C9. When the answering service returns an answer, the answer is
    appended after the question and no error is recorded, whatever its
    citations refer to; a citation of an id that no published source
    carries is in it with the fallback title. *)
Theorem citation_of_absent_source (st : App.State) (answer : string)
    (rawCitations : list Citation.raw) (cit : Citation.raw) :
  App.sources st <> [] ->
  querySources question (App.sources st) = Js.Returns (Answer.mk answer rawCitations) ->
  In cit rawCitations ->
  Forall (fun s => Source.id s <> Citation.rawSourceId cit) (App.sources st) ->
  let st' := snd (sendMessage querySources now later question st) in
  let resolved :=
    Citation.mk (Citation.rawSourceId cit) unknown_source_title (Citation.rawQuote cit) in
  App.error st' = None /\
  (exists citations,
     App.messages st' =
       App.messages st ++
       [userMessage_at now question;
        ChatMessage.mk ("msg-" +:+ Js.show (later + 1)) model answer (Some citations)]
     /\ citations = map (resolveCitation (App.sources st)) rawCitations
     /\ In resolved citations).
Proof.
  intros Hnonempty Hanswer Hin Habsent. cbn zeta.
  unfold sendMessage. rewrite Hanswer.
  destruct (App.sources st) as [|s0 srcs] eqn:Hsrc; [congruence|].
  cbn [length Nat.eqb snd].
  split.
  - unfold appendMessage. now destruct st as [[] ?].
  - eexists. split; [|split; [reflexivity|]].
    + unfold userMessage_at, appendMessage, App.messages.
      destruct st as [[] ?]; cbn; now rewrite <- app_assoc.
    + apply in_map_iff. exists cit. split; [|exact Hin].
      now apply resolveCitation_absent.
Qed.

End Asking.

(** C1, as stated, fails: after the failed call the log holds the
    question. *)
Lemma ask_with_no_sources_appends_question :
  App.sources emptied_session = [] /\
  App.messages (snd (sendMessage stale_answering asked answered "x" emptied_session))
  <> App.messages emptied_session.
Proof. split; [reflexivity | vm_compute; discriminate]. Qed.

Lemma ask_with_no_sources_witness :
  App.sources emptied_session = [] /\
  let '(calls, st') := sendMessage stale_answering asked answered "x" emptied_session in
  calls = [] /\
  App.error st' = Some no_sources_message /\
  App.messages st' = App.messages emptied_session ++ [userMessage_at asked "x"] /\
  App.isLoading st' = false /\
  App.sources st' = [] /\
  App.draftSources st' = App.draftSources emptied_session.
Proof.
  split; [reflexivity|].
  exact (ask_with_no_sources stale_answering asked answered "x" emptied_session eq_refl).
Defined.

Lemma citation_of_absent_source_witness :
  let st := admin_session in
  let cit := Citation.mkRaw "source-gone" "q" in
  App.sources st <> [] /\
  Forall (fun s => Source.id s <> Citation.rawSourceId cit) (App.sources st) /\
  App.error (snd (sendMessage stale_answering asked answered "x" st)) = None.
Proof.
  cbn zeta.
  assert (Hne : App.sources admin_session <> []) by (vm_compute; discriminate).
  assert (Habsent : Forall (fun s => Source.id s <> "source-gone")
                      (App.sources admin_session)).
  { repeat constructor. vm_compute. discriminate. }
  split; [exact Hne|]. split; [exact Habsent|].
  exact (proj1 (citation_of_absent_source stale_answering asked answered "x"
                  admin_session "answer" [Citation.mkRaw "source-gone" "q"]
                  (Citation.mkRaw "source-gone" "q")
                  Hne eq_refl (or_introl eq_refl) Habsent)).
Defined.

(* ===================================================================== *)
(** ** Properties: reading from the store                                 *)
(* ===================================================================== *)

Section Reading.

Variable remote : Http.Remote.
Variable etag : option string.

Lemma ok_not_304 (response : Http.Response) :
  Http.ok response = true -> (Http.status response =? 304) = false.
Proof. unfold Http.ok. lia. Qed.

Lemma not_ok_404 (response : Http.Response) :
  Http.status response = 404 -> Http.ok response = false.
Proof. unfold Http.ok. lia. Qed.

(** With an id, exactly one request goes out, and the outcome is that
    of the [try] block, filtered by the [catch] clause. *)
Lemma getSources_with_id (gistId : string) :
  gistId <> "" ->
  getSources remote (Some gistId) etag
  = ([getSources_request gistId etag],
     match getSources_try gistId etag (remote (getSources_request gistId etag)) with
     | inl e => inl (getSources_catch e)
     | inr value => inr value
     end).
Proof. intros Hid. now destruct gistId. Qed.

(** C6. For an id that the store does not know (it answers 404),
    [getSources] throws [GistNotFoundError]; for the empty or the absent
    id it sends nothing and returns the built-in sources with status
    200 and no revision tag. *)
Theorem not_found_or_default :
  (forall (gistId : string) (response : Http.Response),
      gistId <> "" ->
      remote (getSources_request gistId etag) = Http.Resolved response ->
      Http.status response = 404 ->
      snd (getSources remote (Some gistId) etag)
      = inl (GistNotFoundError (not_found_message gistId)))
  /\
  (forall gistId : option string,
      gistId = None \/ gistId = Some "" ->
      getSources remote gistId etag
      = ([], inr (Fetched.mk 200 (Some DEFAULT_SOURCES) None))).
Proof.
  split.
  - intros gistId response Hid Hresp H404.
    rewrite (getSources_with_id _ Hid), Hresp. unfold getSources_try.
    rewrite (not_ok_404 _ H404), H404. reflexivity.
  - intros gistId [-> | ->]; reflexivity.
Qed.

(** The fallbacks of a successful response: when the payload has no
    [sources.json], or the file holds JSON that is not an array, or the
    empty array, [getSources] returns the built-in sources with status
    200 and the revision tag of the response. *)
Theorem unusable_payload_gives_defaults (gistId : string)
    (response : Http.Response) (data : Gist.Data) :
  gistId <> "" ->
  remote (getSources_request gistId etag) = Http.Resolved response ->
  Http.ok response = true ->
  Http.json response = Js.Returns data ->
  FallsBack data ->
  getSources remote (Some gistId) etag
  = ([getSources_request gistId etag],
     inr (Fetched.mk 200 (Some DEFAULT_SOURCES) (Http.etagHeader response))).
Proof.
  intros Hid Hresp Hok Hjson Hdata.
  rewrite (getSources_with_id _ Hid), Hresp. unfold getSources_try.
  rewrite (ok_not_304 _ Hok), Hok, Hjson. cbn [negb].
  destruct Hdata as [m | files m Hfile | files m v Hfile Hv | files m Hfile];
    cbn [Gist.files]; rewrite ?Hfile; cbn [Gist.parsed]; try reflexivity.
  destruct v; try reflexivity. now destruct (Hv elements).
Qed.

(** C7, where the code departs from it. A successful response whose
    [sources.json] holds text that is not JSON (not a sequence, then) is
    a hard failure: [JSON.parse] throws inside the [try] block, no
    fallback is taken, and [getSources] throws, whatever the parse error
    says: the network error, or the parse error itself when its message
    quotes the text [API GitHub].  The built-in sources and the revision
    tag of the response are not returned. *)
Theorem unparsable_payload_is_a_hard_failure (gistId : string)
    (response : Http.Response) (files : gmap string Gist.File)
    (m : option string) (msg : string) :
  gistId <> "" ->
  remote (getSources_request gistId etag) = Http.Resolved response ->
  Http.ok response = true ->
  Http.json response = Js.Returns (Gist.mkData (Some files) m) ->
  files !! FILENAME = Some (Gist.mkFile (Js.Throws msg)) ->
  getSources remote (Some gistId) etag
  = ([getSources_request gistId etag],
     inl (Error (if Js.includes msg "API GitHub" then msg
                 else network_error_message)))
  /\ snd (getSources remote (Some gistId) etag)
     <> inr (Fetched.mk 200 (Some DEFAULT_SOURCES) (Http.etagHeader response)).
Proof.
  intros Hid Hresp Hok Hjson Hfile.
  assert (Hthrows :
            getSources remote (Some gistId) etag
            = ([getSources_request gistId etag],
               inl (Error (if Js.includes msg "API GitHub" then msg
                           else network_error_message)))).
  { rewrite (getSources_with_id _ Hid), Hresp. unfold getSources_try.
    rewrite (ok_not_304 _ Hok), Hok, Hjson. cbn [negb Gist.files].
    rewrite Hfile. cbn [Gist.parsed getSources_catch].
    now destruct (Js.includes msg "API GitHub"). }
  split; [exact Hthrows|]. rewrite Hthrows. discriminate.
Qed.

(** X1. A stored collection that is not empty is returned as it is, in
    its order, with status 200 and the revision tag of the response. *)
Lemma usable_payload_is_returned (gistId : string) (response : Http.Response)
    (files : gmap string Gist.File) (m : option string)
    (s : Source.t) (rest : list Source.t) :
  gistId <> "" ->
  remote (getSources_request gistId etag) = Http.Resolved response ->
  Http.ok response = true ->
  Http.json response = Js.Returns (Gist.mkData (Some files) m) ->
  files !! FILENAME = Some (Gist.mkFile (Js.Returns (JArray (s :: rest)))) ->
  snd (getSources remote (Some gistId) etag)
  = inr (Fetched.mk 200 (Some (s :: rest)) (Http.etagHeader response)).
Proof.
  intros Hid Hresp Hok Hjson Hfile.
  rewrite (getSources_with_id _ Hid), Hresp. unfold getSources_try.
  rewrite (ok_not_304 _ Hok), Hok, Hjson. cbn [negb Gist.files].
  now rewrite Hfile.
Qed.

(** X2. A file whose text is not JSON at all is not among the fallbacks:
    the parse error leaves [getSources] as the network error. *)
Lemma unparsable_file_is_an_error (gistId : string) (response : Http.Response)
    (files : gmap string Gist.File) (m : option string) (msg : string) :
  gistId <> "" ->
  remote (getSources_request gistId etag) = Http.Resolved response ->
  Http.ok response = true ->
  Http.json response = Js.Returns (Gist.mkData (Some files) m) ->
  files !! FILENAME = Some (Gist.mkFile (Js.Throws msg)) ->
  Js.includes msg "API GitHub" = false ->
  snd (getSources remote (Some gistId) etag) = inl (Error network_error_message).
Proof.
  intros Hid Hresp Hok Hjson Hfile Hmsg.
  rewrite (getSources_with_id _ Hid), Hresp. unfold getSources_try.
  rewrite (ok_not_304 _ Hok), Hok, Hjson. cbn [negb Gist.files].
  rewrite Hfile. cbn [Gist.parsed getSources_catch]. now rewrite Hmsg.
Qed.

End Reading.

Lemma not_found_or_default_witness :
  snd (getSources (answering_with 404 None no_document) (Some "abc") None)
  = inl (GistNotFoundError (not_found_message "abc"))
  /\ getSources (answering_with 404 None no_document) (Some "") None
     = ([], inr (Fetched.mk 200 (Some DEFAULT_SOURCES) None)).
Proof.
  split.
  - apply (proj1 (not_found_or_default (answering_with 404 None no_document) None)
             "abc" (Http.mkResponse 404 None (Js.Returns no_document))).
    + discriminate.
    + reflexivity.
    + reflexivity.
  - apply (proj2 (not_found_or_default (answering_with 404 None no_document) None)).
    right. reflexivity.
Defined.

Lemma unparsable_payload_is_a_hard_failure_witness :
  Http.ok (Http.mkResponse 200 (Some "W/2")
             (Js.Returns (unparsable_document "Unexpected token h in JSON at position 0")))
  = true
  /\ getSources
       (answering_with 200 (Some "W/2")
          (unparsable_document "Unexpected token h in JSON at position 0"))
       (Some PUBLIC_GIST_ID) (Some "W/1")
     = ([getSources_request PUBLIC_GIST_ID (Some "W/1")],
        inl (Error network_error_message)).
Proof.
  split; [reflexivity|].
  apply (proj1 (unparsable_payload_is_a_hard_failure
           (answering_with 200 (Some "W/2")
              (unparsable_document "Unexpected token h in JSON at position 0"))
           (Some "W/1") PUBLIC_GIST_ID
           (Http.mkResponse 200 (Some "W/2")
              (Js.Returns (unparsable_document "Unexpected token h in JSON at position 0")))
           {[ FILENAME := Gist.mkFile (Js.Throws "Unexpected token h in JSON at position 0") ]}
           None "Unexpected token h in JSON at position 0"
           ltac:(discriminate) eq_refl eq_refl eq_refl (lookup_singleton_eq _ _))).
Defined.

Lemma unusable_payload_gives_defaults_witness :
  FallsBack (document_of (JString "hello")) /\
  getSources (answering_with 200 (Some "W/2") (document_of (JString "hello")))
    (Some "abc") (Some "W/1")
  = ([getSources_request "abc" (Some "W/1")],
     inr (Fetched.mk 200 (Some DEFAULT_SOURCES) (Some "W/2"))).
Proof.
  assert (Hdata : FallsBack (document_of (JString "hello"))).
  { apply NotASequence with (v := JString "hello").
    - apply lookup_singleton_eq.
    - discriminate. }
  split; [exact Hdata|].
  apply (unusable_payload_gives_defaults
           (answering_with 200 (Some "W/2") (document_of (JString "hello")))
           (Some "W/1") "abc"
           (Http.mkResponse 200 (Some "W/2") (Js.Returns (document_of (JString "hello"))))
           (document_of (JString "hello"))).
  - discriminate.
  - reflexivity.
  - reflexivity.
  - reflexivity.
  - exact Hdata.
Defined.

(* ===================================================================== *)
(** ** Properties: the initial load                                       *)
(* ===================================================================== *)

Section InitialLoad.

Variable remote : Http.Remote.

(** On every failure of the initial load the published and the draft
    collection are the built-in sources, the revision tag is the one
    held before (none, for a fresh component), and a description of the
    failure is recorded. *)
Lemma failed_load_falls_back (st : App.State) :
  ~ load_succeeds remote ->
  let st' := snd (fetchInitialSources remote st) in
  App.sources st' = DEFAULT_SOURCES /\
  App.draftSources st' = DEFAULT_SOURCES /\
  App.sourcesEtag st' = App.sourcesEtag st /\
  App.error st' = Some (load_error_description (load_failure remote)) /\
  App.isFetchingSources st' = false.
Proof.
  intros Hfail. cbn zeta. unfold fetchInitialSources, load_failure.
  unfold load_succeeds in Hfail.
  destruct (getSources remote (Some PUBLIC_GIST_ID) None) as [requests outcome].
  cbn [snd] in *.
  destruct outcome as [err | [status [fetched|] newEtag]]; cbn [snd];
    try (repeat split; reflexivity).
  destruct (status =? 200) eqn:Hstatus; [|repeat split; reflexivity].
  apply Z.eqb_eq in Hstatus. subst status.
  exfalso. apply Hfail. eauto.
Qed.

Lemma successful_load_is_kept (st : App.State) (fetched : list Source.t)
    (newEtag : option string) :
  snd (getSources remote (Some PUBLIC_GIST_ID) None)
  = inr (Fetched.mk 200 (Some fetched) newEtag) ->
  let st' := snd (fetchInitialSources remote st) in
  App.sources st' = fetched /\
  App.draftSources st' = fetched /\
  App.sourcesEtag st' = newEtag /\
  App.error st' = None.
Proof.
  intros Hget. cbn zeta. unfold fetchInitialSources.
  destruct (getSources remote (Some PUBLIC_GIST_ID) None) as [requests outcome].
  cbn [snd] in Hget. subst outcome. repeat split; reflexivity.
Qed.

End InitialLoad.

(** The three descriptions are different texts. *)
Lemma load_descriptions_differ :
  not_found_message PUBLIC_GIST_ID <> rate_limit_message /\
  not_found_message PUBLIC_GIST_ID <> load_failed_message /\
  rate_limit_message <> load_failed_message.
Proof. repeat split; vm_compute; discriminate. Qed.

(** The causes that are described as the code intends: an unknown id, the
    rate limit, a transport failure. *)
Lemma load_descriptions_by_cause (st : App.State) :
  App.error (snd (fetchInitialSources (failing_with 404) st))
  = Some (not_found_message PUBLIC_GIST_ID) /\
  App.error (snd (fetchInitialSources (failing_with 403) st))
  = Some rate_limit_message /\
  App.error (snd (fetchInitialSources (fun _ => Http.Rejected "Failed to fetch") st))
  = Some load_failed_message.
Proof. repeat split; vm_compute; reflexivity. Qed.

(** C3, where the code departs from it. A response that is neither the
    rate limit nor "not found" (status 500 here) is described to the user
    with the text of the rate limit: the message that [getSources] throws
    for it contains "API" too, which is all that [fetchInitialSources]
    tests.  The collections and the revision tag are as the claim says. *)
Theorem server_error_described_as_rate_limit (st : App.State) :
  let st' := snd (fetchInitialSources (failing_with 500) st) in
  snd (getSources (failing_with 500) (Some PUBLIC_GIST_ID) None)
  = inl (Error (api_error_message 500)) /\
  App.error st' = Some rate_limit_message /\
  App.error st' = App.error (snd (fetchInitialSources (failing_with 403) st)) /\
  App.sources st' = DEFAULT_SOURCES /\
  App.draftSources st' = DEFAULT_SOURCES /\
  App.sourcesEtag st' = App.sourcesEtag st.
Proof. cbn zeta. repeat split; vm_compute; reflexivity. Qed.

(* ===================================================================== *)
(** ** Properties: the background poll                                    *)
(* ===================================================================== *)

Section Polling.

Variable remote : Http.Remote.
Variable now : Z.

(** A poll that finds nothing new ([304]) or fails changes nothing. *)
Lemma poll_without_news (st : App.State) (requests : list Http.Request)
    (outcome : Exception + Fetched.t) :
  getSources remote (Some PUBLIC_GIST_ID) (App.sourcesEtag st) = (requests, outcome) ->
  (forall newSources newEtag,
      outcome <> inr (Fetched.mk 200 (Some newSources) newEtag)) ->
  snd (pollingTick remote now st) = st.
Proof.
  intros Hget Hold. unfold pollingTick.
  destruct (hasUnsavedChanges st || negb (Js.truthy (App.sourcesEtag st)));
    [reflexivity|].
  rewrite Hget. cbn [snd].
  destruct outcome as [err | [status [newSources|] newEtag]]; try reflexivity.
  destruct (status =? 200) eqn:Hstatus; [|reflexivity].
  apply Z.eqb_eq in Hstatus. subst status. now destruct (Hold newSources newEtag).
Qed.

(** C2. A tick is skipped, with no request and no change of state, when
    the session is dirty or holds no revision tag ([null], or the empty
    string).  A tick of a clean session whose fetch brings a new
    collection replaces the published collection and the revision tag,
    adds exactly one notification, and then, for an admin, replaces the
    draft as well, and for a guest, empties the guest conversation. *)
Theorem polling_tick (st : App.State) :
  (hasUnsavedChanges st = true \/ Js.truthy (App.sourcesEtag st) = false ->
   pollingTick remote now st = ([], st))
  /\
  (forall (requests : list Http.Request) (newSources : list Source.t)
          (newEtag : option string),
      hasUnsavedChanges st = false ->
      Js.truthy (App.sourcesEtag st) = true ->
      getSources remote (Some PUBLIC_GIST_ID) (App.sourcesEtag st)
      = (requests, inr (Fetched.mk 200 (Some newSources) newEtag)) ->
      let st' := snd (pollingTick remote now st) in
      App.sources st' = newSources /\
      App.sourcesEtag st' = newEtag /\
      App.toasts st' = App.toasts st ++ [update_toast now (App.isAdmin st)] /\
      App.isAdmin st' = App.isAdmin st /\
      App.adminMessages st' = App.adminMessages st /\
      (if App.isAdmin st
       then App.draftSources st' = newSources /\
            App.guestMessages st' = App.guestMessages st
       else App.guestMessages st' = [] /\
            App.draftSources st' = App.draftSources st)).
Proof.
  split.
  - intros Hskip. unfold pollingTick.
    destruct Hskip as [-> | ->]; [reflexivity|].
    now rewrite orb_true_r.
  - intros requests newSources newEtag Hclean Htag Hget. cbn zeta.
    unfold pollingTick. rewrite Hclean, Htag, Hget. cbn [negb orb snd Z.eqb].
    unfold update_toast.
    destruct (App.isAdmin st) eqn:Hadmin; cbn; rewrite ?Hadmin; easy.
Qed.

(** For a guest the draft is not replaced; when the new collection differs
    from it, the session counts as dirty afterwards and the next tick is
    skipped. *)
Lemma guest_update_stops_polling (st : App.State) (requests : list Http.Request)
    (newSources : list Source.t) (newEtag : option string) :
  App.isAdmin st = false ->
  hasUnsavedChanges st = false ->
  Js.truthy (App.sourcesEtag st) = true ->
  getSources remote (Some PUBLIC_GIST_ID) (App.sourcesEtag st)
  = (requests, inr (Fetched.mk 200 (Some newSources) newEtag)) ->
  newSources <> App.draftSources st ->
  let st' := snd (pollingTick remote now st) in
  pollingTick remote now st' = ([], st').
Proof.
  intros Hguest Hclean Htag Hget Hnew. cbn zeta.
  assert (Hdirty : hasUnsavedChanges (snd (pollingTick remote now st)) = true).
  { apply not_false_iff_true. intros Hc. apply clean_iff_equal in Hc.
    unfold pollingTick in Hc. rewrite Hclean, Htag, Hget, Hguest in Hc.
    cbn in Hc. congruence. }
  unfold pollingTick at 1. now rewrite Hdirty.
Qed.

End Polling.

Lemma polling_tick_witness :
  let dirty := once_added in
  (hasUnsavedChanges dirty = true /\
   pollingTick pushing_store 1700000020000 dirty = ([], dirty))
  /\
  (hasUnsavedChanges admin_session = false /\
   Js.truthy (App.sourcesEtag admin_session) = true /\
   App.sources (snd (pollingTick pushing_store 1700000020000 admin_session)) = [fresh_source]).
Proof.
  cbn zeta. split.
  - assert (Hdirty : hasUnsavedChanges once_added = true) by (vm_compute; reflexivity).
    split; [exact Hdirty|].
    exact (proj1 (polling_tick pushing_store 1700000020000 _) (or_introl Hdirty)).
  - assert (Hclean : hasUnsavedChanges admin_session = false) by (vm_compute; reflexivity).
    assert (Htag : Js.truthy (App.sourcesEtag admin_session) = true) by reflexivity.
    split; [exact Hclean|]. split; [exact Htag|].
    refine (proj1 (proj2 (polling_tick pushing_store 1700000020000 admin_session)
                     [getSources_request PUBLIC_GIST_ID (Some "W/1")]
                     [fresh_source] (Some "W/2") Hclean Htag _)).
    vm_compute. reflexivity.
Defined.

(* ===================================================================== *)
(** ** Properties: saving                                                 *)
(* ===================================================================== *)

Section Saving.

Variable remote : Http.Remote.
Variable now : Z.

Lemma credential_missing_iff (st : App.State) :
  credential_missing (App.adminConfig st) = true <-> NoCredential st.
Proof.
  unfold credential_missing, NoCredential.
  destruct (App.adminConfig st) as [[[|c token] savedAt]|]; cbn; split;
    intros H; try easy.
Qed.

(** C8. Without a stored credential, saving issues no request and leaves
    the published and the draft collection (and the revision tag) as
    they are; the failure is reported as the configuration error and the
    admin is sent to the settings.  [saveSources] itself, given the
    missing token, throws the configuration error before any request. *)
Theorem save_without_credential (st : App.State) :
  NoCredential st ->
  let '(calls, st') := handleSaveChanges remote now st in
  calls = [] /\
  App.sources st' = App.sources st /\
  App.draftSources st' = App.draftSources st /\
  App.sourcesEtag st' = App.sourcesEtag st /\
  App.toasts st' = App.toasts st ++ [ToastMessage.mk now config_missing_message error] /\
  App.adminActivePanel st' = PanelSettings /\
  (forall (sources : list Source.t) (gistId : option string),
      saveSources remote sources gistId
        (AdminConfig.githubToken <$> App.adminConfig st)
      = ([], inl (Error config_required_message))).
Proof.
  intros Hnone. unfold handleSaveChanges.
  pose proof (proj2 (credential_missing_iff st) Hnone) as Hmissing.
  rewrite Hmissing. repeat split.
  intros sources gistId. unfold saveSources.
  unfold credential_missing in Hmissing. rewrite Hmissing.
  now rewrite orb_true_r.
Qed.

(** With a credential, exactly one request goes out. *)
Lemma save_with_credential_calls_store (st : App.State) :
  ~ NoCredential st ->
  exists request, fst (handleSaveChanges remote now st) = [Fetch request].
Proof.
  intros Hsome. unfold handleSaveChanges.
  destruct (credential_missing (App.adminConfig st)) eqn:Hmissing.
  - now apply credential_missing_iff in Hmissing.
  - unfold saveSources. unfold credential_missing in Hmissing.
    apply negb_false_iff in Hmissing. rewrite Hmissing. cbn.
    eexists. reflexivity.
Qed.

End Saving.

Lemma save_without_credential_witness :
  NoCredential admin_session /\
  fst (handleSaveChanges pushing_store 1700000030000 admin_session) = [] /\
  App.draftSources (snd (handleSaveChanges pushing_store 1700000030000 admin_session))
  = App.draftSources admin_session.
Proof.
  assert (Hnone : NoCredential admin_session) by exact I.
  split; [exact Hnone|].
  pose proof (save_without_credential pushing_store 1700000030000 admin_session Hnone) as H.
  destruct (handleSaveChanges pushing_store 1700000030000 admin_session) as [calls st'].
  destruct H as (Hcalls & _ & Hdraft & _).
  split; [exact Hcalls | exact Hdraft].
Defined.

(* ===================================================================== *)
(** ** Properties: what is written to the store                           *)
(* ===================================================================== *)

Module PrettyFacts.
Import Json JsonFacts Stringify StringifyFacts.

Lemma member_pretty_starts_with_quote (key value : string) :
  exists rest, member_pretty key value = String dquote rest.
Proof. unfold member_pretty, quote. rewrite append_cons. eauto. Qed.

Lemma member_pretty_inj_framed (k1 k2 v1 v2 r1 r2 : string) :
  member_pretty k1 v1 +:+ r1 = member_pretty k2 v2 +:+ r2 ->
  k1 = k2 /\ v1 +:+ r1 = v2 +:+ r2.
Proof.
  unfold member_pretty. intros H. rewrite !append_assoc in H.
  apply quote_inj_framed in H. destruct H as [-> H].
  rewrite !append_cons, !append_nil_l in H. injection H as H. easy.
Qed.

Lemma object_pretty_starts_with_brace (depth : nat) (members : list string) :
  exists rest, object_pretty depth members = String "{" rest.
Proof.
  unfold object_pretty. destruct members; [eauto|]. rewrite append_cons. eauto.
Qed.

Lemma object_pretty_inj_framed {A : Type} (f : A -> string) (depth : nat)
    (l1 l2 : list A) (r1 r2 : string) :
  (forall a b s1 s2, f a +:+ s1 = f b +:+ s2 -> a = b /\ s1 = s2) ->
  (forall a, exists rest, f a = String dquote rest) ->
  object_pretty depth (map f l1) +:+ r1 = object_pretty depth (map f l2) +:+ r2 ->
  l1 = l2 /\ r1 = r2.
Proof.
  intros Hframed Hquote H. unfold object_pretty, nl in H.
  destruct l1 as [|x xs], l2 as [|y ys]; cbn [map] in H.
  - rewrite !append_cons, !append_nil_l in H. injection H as H. easy.
  - rewrite !append_cons, !append_nil_l in H. discriminate H.
  - rewrite !append_cons, !append_nil_l in H. discriminate H.
  - rewrite !append_assoc in H.
    do 3 apply append_inv_head in H.
    assert (Hstop : forall r,
               String newline "" +:+ indent depth +:+ "}" +:+ r
               = (String newline "" +:+ indent depth +:+ "}") +:+ r)
      by (intros r; now rewrite !append_assoc).
    rewrite !Hstop in H.
    apply (joined_inj_framed f _ _ Hframed) with (l1 := x :: xs) (l2 := y :: ys) in H;
      [exact H | |].
    + intros a s1 s2 Heq. destruct (Hquote a) as [rest Hrest].
      rewrite Hrest, !append_cons in Heq. discriminate Heq.
    + intros s1 s2 Heq. rewrite !append_cons in Heq. discriminate Heq.
Qed.

Lemma string_member_pretty_inj_framed (p q : string * string) (r1 r2 : string) :
  member_pretty (fst p) (quote (snd p)) +:+ r1
  = member_pretty (fst q) (quote (snd q)) +:+ r2 ->
  p = q /\ r1 = r2.
Proof.
  destruct p as [k1 v1], q as [k2 v2]. cbn [fst snd]. intros H.
  apply member_pretty_inj_framed in H. destruct H as [-> H].
  apply quote_inj_framed in H. destruct H as [-> ->]. easy.
Qed.

Lemma content_pretty_inj_framed (depth : nat) (c1 c2 : Content.t) (r1 r2 : string) :
  content_pretty depth c1 +:+ r1 = content_pretty depth c2 +:+ r2 ->
  c1 = c2 /\ r1 = r2.
Proof.
  unfold content_pretty. intros H.
  apply object_pretty_inj_framed in H.
  - destruct H as [H ->]. split; [now apply content_properties_inj | reflexivity].
  - apply string_member_pretty_inj_framed.
  - intros a. apply member_pretty_starts_with_quote.
Qed.

Lemma property_pretty_inj_framed (depth : nat) (p q : Property) (r1 r2 : string) :
  property_pretty depth p +:+ r1 = property_pretty depth q +:+ r2 ->
  p = q /\ r1 = r2.
Proof.
  destruct p as [k1 v1 | k1 c1], q as [k2 v2 | k2 c2]; cbn [property_pretty]; intros H;
    apply member_pretty_inj_framed in H; destruct H as [-> H].
  - apply quote_inj_framed in H. destruct H as [-> ->]. easy.
  - exfalso. unfold content_pretty in H.
    destruct (object_pretty_starts_with_brace depth
                (map (fun p => member_pretty (fst p) (quote (snd p)))
                   (Content.properties c2))) as [rest Hrest].
    rewrite Hrest in H. unfold quote in H. rewrite !append_cons in H. discriminate H.
  - exfalso. unfold content_pretty in H.
    destruct (object_pretty_starts_with_brace depth
                (map (fun p => member_pretty (fst p) (quote (snd p)))
                   (Content.properties c1))) as [rest Hrest].
    rewrite Hrest in H. unfold quote in H. rewrite !append_cons in H. discriminate H.
  - apply content_pretty_inj_framed in H. destruct H as [-> ->]. easy.
Qed.

Lemma property_pretty_starts_with_quote (depth : nat) (p : Property) :
  exists rest, property_pretty depth p = String dquote rest.
Proof. destruct p; apply member_pretty_starts_with_quote. Qed.

Lemma source_pretty_inj_framed (depth : nat) (s1 s2 : Source.t) (r1 r2 : string) :
  source_pretty depth s1 +:+ r1 = source_pretty depth s2 +:+ r2 ->
  s1 = s2 /\ r1 = r2.
Proof.
  unfold source_pretty. intros H.
  apply object_pretty_inj_framed in H.
  - destruct H as [H ->]. split; [now apply source_properties_inj | reflexivity].
  - apply property_pretty_inj_framed.
  - apply property_pretty_starts_with_quote.
Qed.

Lemma sources_pretty_inj (l1 l2 : list Source.t) :
  sources_pretty l1 = sources_pretty l2 -> l1 = l2.
Proof.
  unfold sources_pretty, nl.
  destruct l1 as [|x xs], l2 as [|y ys]; intros H; try reflexivity.
  - rewrite !append_cons, !append_nil_l in H. discriminate H.
  - rewrite !append_cons, !append_nil_l in H. discriminate H.
  - do 3 apply append_inv_head in H.
    assert (H' : String.concat ("," +:+ String newline "" +:+ indent 2)
                   (map (source_pretty 2) (x :: xs)) +:+ (String newline "" +:+ "]") +:+ ""
                 = String.concat ("," +:+ String newline "" +:+ indent 2)
                     (map (source_pretty 2) (y :: ys)) +:+ (String newline "" +:+ "]") +:+ "").
    { rewrite !append_empty_r. exact H. }
    apply (joined_inj_framed (source_pretty 2) _ _ (source_pretty_inj_framed 2)) in H';
      [easy | |].
    + intros a s1 s2 Heq. unfold source_pretty in Heq.
      destruct (object_pretty_starts_with_brace 2
                  (map (property_pretty (2 + 2)) (Source.properties a))) as [rest Hrest].
      rewrite Hrest, !append_cons in Heq. discriminate Heq.
    + intros s1 s2 Heq. rewrite !append_cons in Heq. discriminate Heq.
Qed.

End PrettyFacts.

(** The serialisation follows the order of the properties of each
    object: the built-in literals are written with the file name before
    the content, an object made by [addSource] with the file name
    last. *)
Lemma stringify_follows_property_order :
  Stringify.source stored_source
  = "{" +:+ Stringify.member "id" (Json.quote "source-1690000000000")
    +:+ "," +:+ Stringify.member "title" (Json.quote "Old")
    +:+ "," +:+ Stringify.member "fileName" (Json.quote "old.txt")
    +:+ "," +:+ Stringify.member "content" (Stringify.content (Content.mk "text/plain" "old"))
    +:+ "}"
  /\ Stringify.source published_source
     = "{" +:+ Stringify.member "id" (Json.quote "source-1690000000000")
       +:+ "," +:+ Stringify.member "title" (Json.quote "Old")
       +:+ "," +:+ Stringify.member "content" (Stringify.content (Content.mk "text/plain" "old"))
       +:+ "," +:+ Stringify.member "fileName" (Json.quote "old.txt")
       +:+ "}".
Proof. split; vm_compute; reflexivity. Qed.

(** X3. The body that [saveSources] sends determines the collection: two
    collections that differ (in a value, in the order of the sources, or
    in the order of the properties of a source) never give the same
    body, whatever the document and the token. *)
Theorem saved_body_determines_collection (s1 s2 : list Source.t)
    (gistId1 gistId2 token1 token2 : string) :
  s1 <> s2 ->
  Http.body (saveSources_request s1 gistId1 token1)
  <> Http.body (saveSources_request s2 gistId2 token2).
Proof.
  intros Hdiff Hbody. apply Hdiff.
  unfold saveSources_request, Stringify.member in Hbody.
  cbn [Http.body] in Hbody. injection Hbody as Hbody.
  StringifyFacts.peel Hbody.
  now apply PrettyFacts.sources_pretty_inj.
Qed.

Lemma saved_body_determines_collection_witness :
  DEFAULT_SOURCES <> [published_source] /\
  Http.body (saveSources_request DEFAULT_SOURCES PUBLIC_GIST_ID "ghp_token")
  <> Http.body (saveSources_request [published_source] PUBLIC_GIST_ID "ghp_token") /\
  [stored_source] <> [published_source] /\
  Http.body (saveSources_request [stored_source] PUBLIC_GIST_ID "ghp_token")
  <> Http.body (saveSources_request [published_source] PUBLIC_GIST_ID "ghp_token").
Proof.
  assert (Hdiff : DEFAULT_SOURCES <> [published_source]) by discriminate.
  assert (Horder : [stored_source] <> [published_source]) by discriminate.
  split; [exact Hdiff|]. split; [|split; [exact Horder|]].
  - exact (saved_body_determines_collection DEFAULT_SOURCES [published_source]
             PUBLIC_GIST_ID PUBLIC_GIST_ID "ghp_token" "ghp_token" Hdiff).
  - exact (saved_body_determines_collection [stored_source] [published_source]
             PUBLIC_GIST_ID PUBLIC_GIST_ID "ghp_token" "ghp_token" Horder).
Defined.

(* ===================================================================== *)
(** ** Properties: the store client, all outcomes                         *)
(* ===================================================================== *)

Section Client.

Variable remote : Http.Remote.

Lemma default_sources_nonempty : DEFAULT_SOURCES <> [].
Proof. discriminate. Qed.

Lemma rate_limit_is_api_error : Js.includes rate_limit_message "API GitHub" = true.
Proof. vm_compute. reflexivity. Qed.

Lemma api_error_is_api_error (status : Z) :
  Js.includes (api_error_message status) "API GitHub" = true.
Proof. reflexivity. Qed.

(** What the [try] block of [getSources] can resolve to. *)
Lemma getSources_try_resolved (gistId : string) (etag : option string)
    (outcome : Http.Outcome) (fetched : Fetched.t) :
  getSources_try gistId etag outcome = inr fetched ->
  (Fetched.status fetched = 304 /\ Fetched.sources fetched = None /\
   Fetched.etag fetched = etag)
  \/ (Fetched.status fetched = 200 /\
      exists l, Fetched.sources fetched = Some l /\ l <> []).
Proof.
  unfold getSources_try. intros H.
  destruct outcome as [m | response]; [discriminate H|].
  destruct (Http.status response =? 304).
  { injection H as <-. left. easy. }
  destruct (negb (Http.ok response)).
  { destruct (Http.status response =? 404); [discriminate H|].
    destruct (Http.status response =? 403); discriminate H. }
  right.
  destruct (Http.json response) as [m | data]; [discriminate H|].
  destruct (Gist.files data) as [files|].
  - destruct (files !! FILENAME) as [file|].
    + destruct (Gist.parsed file) as [m | v]; [discriminate H|].
      destruct v as [ | | | | | elements]; injection H as <-;
        cbn [Fetched.status Fetched.sources]; split; try reflexivity;
        try (exists DEFAULT_SOURCES; split; [reflexivity | discriminate]).
      destruct elements as [|s rest]; cbn.
      * exists DEFAULT_SOURCES. split; [reflexivity | discriminate].
      * exists (s :: rest). split; [reflexivity | discriminate].
    + injection H as <-. split; [reflexivity|].
      exists DEFAULT_SOURCES. split; [reflexivity | discriminate].
  - injection H as <-. split; [reflexivity|].
    exists DEFAULT_SOURCES. split; [reflexivity | discriminate].
Qed.

(** X4. Whenever [getSources] resolves, it is either with status 304, no
    collection and the revision tag it was called with, or with status
    200 and a collection that is not empty: a caller that sees status 200
    never receives an empty collection. *)
Theorem getSources_resolves_to (gistId etag : option string)
    (requests : list Http.Request) (fetched : Fetched.t) :
  getSources remote gistId etag = (requests, inr fetched) ->
  (Fetched.status fetched = 304 /\ Fetched.sources fetched = None /\
   Fetched.etag fetched = etag)
  \/ (Fetched.status fetched = 200 /\
      exists l, Fetched.sources fetched = Some l /\ l <> []).
Proof.
  unfold getSources. destruct (negb (Js.truthy gistId)).
  - intros H. injection H as _ <-. right. split; [reflexivity|].
    exists DEFAULT_SOURCES. split; [reflexivity | discriminate].
  - intros H. injection H as _ H.
    destruct (getSources_try _ _ _) as [e | value] eqn:Htry; [discriminate H|].
    injection H as <-. exact (getSources_try_resolved _ _ _ _ Htry).
Qed.

(** X5. Whatever goes wrong, [getSources] throws one of three things: its
    [GistNotFoundError] for the requested id, an [Error] whose message
    contains "API GitHub" (the rate limit, another status, or a run-time
    message with these words), or the network error; and it has sent
    exactly one request. *)
Theorem getSources_throws (gistId etag : option string)
    (requests : list Http.Request) (e : Exception) :
  getSources remote gistId etag = (requests, inl e) ->
  exists id,
    gistId = Some id /\ id <> "" /\
    requests = [getSources_request id etag] /\
    (e = GistNotFoundError (not_found_message id)
     \/ (exists m, e = Error m /\ Js.includes m "API GitHub" = true)
     \/ e = Error network_error_message).
Proof.
  unfold getSources.
  destruct gistId as [[|c id]|]; cbn [Js.truthy negb]; try discriminate.
  intros H. injection H as <- H. exists (String c id).
  split; [reflexivity|]. split; [discriminate|]. split; [reflexivity|].
  change (default "" (Some (String c id))) with (String c id) in H.
  destruct (getSources_try _ _ _) as [e0 | value] eqn:Htry; [|discriminate H].
  injection H as <-.
  assert (Hcatch : forall m,
             getSources_catch (Error m) = Error network_error_message
             \/ (getSources_catch (Error m) = Error m
                 /\ Js.includes m "API GitHub" = true)).
  { intros m. cbn [getSources_catch].
    destruct (Js.includes m "API GitHub"); [right | left]; easy. }
  assert (Hplain : forall m,
             getSources_catch (Error m) = GistNotFoundError (not_found_message (String c id))
             \/ (exists m', getSources_catch (Error m) = Error m'
                            /\ Js.includes m' "API GitHub" = true)
             \/ getSources_catch (Error m) = Error network_error_message).
  { intros m. destruct (Hcatch m) as [-> | [-> Hm]]; [now right; right|].
    right; left. eauto. }
  unfold getSources_try in Htry.
  destruct (remote _) as [m | response]; [injection Htry as <-; apply Hplain|].
  destruct (Http.status response =? 304); [discriminate Htry|].
  destruct (negb (Http.ok response)).
  { destruct (Http.status response =? 404); [injection Htry as <-; now left|].
    destruct (Http.status response =? 403); injection Htry as <-; apply Hplain. }
  destruct (Http.json response) as [m | data]; [injection Htry as <-; apply Hplain|].
  destruct (Gist.files data) as [files|]; [|discriminate Htry].
  destruct (files !! FILENAME) as [file|]; [|discriminate Htry].
  destruct (Gist.parsed file) as [m | v]; [injection Htry as <-; apply Hplain|].
  destruct v; discriminate Htry.
Qed.

End Client.

Lemma getSources_resolves_to_witness :
  getSources pushing_store (Some "abc") (Some "W/1")
  = ([getSources_request "abc" (Some "W/1")],
     inr (Fetched.mk 200 (Some [fresh_source]) (Some "W/2")))
  /\ ((200 = 304 /\ Some [fresh_source] = None /\ Some "W/2" = Some "W/1")
      \/ (200 = 200 /\ exists l, Some [fresh_source] = Some l /\ l <> [])).
Proof.
  assert (Hget : getSources pushing_store (Some "abc") (Some "W/1")
                 = ([getSources_request "abc" (Some "W/1")],
                    inr (Fetched.mk 200 (Some [fresh_source]) (Some "W/2"))))
    by reflexivity.
  split; [exact Hget|].
  exact (getSources_resolves_to pushing_store (Some "abc") (Some "W/1") _ _ Hget).
Defined.

Lemma getSources_throws_witness :
  getSources (failing_with 500) (Some "abc") None
  = ([getSources_request "abc" None], inl (Error (api_error_message 500)))
  /\ exists id,
       Some "abc" = Some id /\ id <> "" /\
       [getSources_request "abc" None] = [getSources_request id None] /\
       (Error (api_error_message 500) = GistNotFoundError (not_found_message id)
        \/ (exists m, Error (api_error_message 500) = Error m
                      /\ Js.includes m "API GitHub" = true)
        \/ Error (api_error_message 500) = Error network_error_message).
Proof.
  assert (Hget : getSources (failing_with 500) (Some "abc") None
                 = ([getSources_request "abc" None],
                    inl (Error (api_error_message 500))))
    by reflexivity.
  split; [exact Hget|].
  exact (getSources_throws (failing_with 500) (Some "abc") None _ _ Hget).
Defined.

Section Writing.

Variable remote : Http.Remote.
Variable sources : list Source.t.

Lemma api_status_message_prefix (status : Z) (rest : string) :
  Js.startsWith ("Lỗi API GitHub! status: " +:+ Js.show status +:+ rest)
    "Lỗi API GitHub!" = true.
Proof. reflexivity. Qed.

(** The [try] block of [saveSources] throws plain errors only. *)
Lemma saveSources_try_plain (outcome : Http.Outcome) (e : Exception) :
  saveSources_try outcome = inl e -> exists m, e = Error m.
Proof.
  unfold saveSources_try. destruct outcome as [m | response].
  - intros H. injection H as <-. eauto.
  - destruct (negb (Http.ok response)); [|discriminate].
    destruct (Http.json response); intros H; injection H as <-; eauto.
Qed.

(** X6. [saveSources] resolves only when the store accepted the write:
    both the id and the token were given, one PATCH request was sent with
    the collection, the response was a success, and the value is the
    revision tag of that response. *)
Theorem saveSources_resolves_only_on_success (gistId githubToken : option string)
    (requests : list Http.Request) (tag : option string) :
  saveSources remote sources gistId githubToken = (requests, inr tag) ->
  exists id token response,
    gistId = Some id /\ id <> "" /\ githubToken = Some token /\ token <> "" /\
    requests = [saveSources_request sources id token] /\
    Http.method (saveSources_request sources id token) = Http.PATCH /\
    remote (saveSources_request sources id token) = Http.Resolved response /\
    Http.ok response = true /\
    tag = Http.etagHeader response.
Proof.
  unfold saveSources.
  destruct gistId as [[|c id]|], githubToken as [[|d token]|];
    cbn [Js.truthy negb orb]; try discriminate.
  change (default "" (Some (String c id))) with (String c id).
  change (default "" (Some (String d token))) with (String d token).
  intros H. injection H as <- H.
  exists (String c id), (String d token).
  unfold saveSources_try in H.
  destruct (remote _) as [m | response] eqn:Hremote; [discriminate H|].
  destruct (Http.ok response) eqn:Hok; cbn [negb] in H.
  - injection H as <-. exists response. repeat split; try discriminate; easy.
  - destruct (Http.json response); discriminate H.
Qed.

(** X7. Whatever goes wrong, [saveSources] throws a plain [Error] with
    one of three messages: the configuration error (and then nothing was
    sent), a message that starts with the words of an API error, or the
    generic "could not save". *)
Theorem saveSources_throws (gistId githubToken : option string)
    (requests : list Http.Request) (e : Exception) :
  saveSources remote sources gistId githubToken = (requests, inl e) ->
  exists m,
    e = Error m /\
    ((m = config_required_message /\ requests = [])
     \/ Js.startsWith m "Lỗi API GitHub!" = true
     \/ m = save_failed_message).
Proof.
  unfold saveSources.
  destruct (negb (Js.truthy gistId) || negb (Js.truthy githubToken)).
  - intros H. injection H as <- <-. exists config_required_message. split; [reflexivity|].
    left. easy.
  - intros H. injection H as _ H.
    destruct (saveSources_try _) as [e0 | value] eqn:Htry; [|discriminate H].
    injection H as <-. unfold saveSources_catch.
    destruct (Js.startsWith (message_of e0) "Lỗi API GitHub!") eqn:Hprefix.
    + destruct (saveSources_try_plain _ _ Htry) as [m ->].
      exists m. split; [reflexivity|]. right; left. exact Hprefix.
    + exists save_failed_message. split; [reflexivity|]. right; right. reflexivity.
Qed.

End Writing.

Lemma saveSources_resolves_only_on_success_witness :
  saveSources accepting_store [published_source] (Some PUBLIC_GIST_ID) (Some "ghp_token")
  = ([saveSources_request [published_source] PUBLIC_GIST_ID "ghp_token"],
     inr (Some "W/4"))
  /\ exists id token response,
       Some PUBLIC_GIST_ID = Some id /\ id <> "" /\
       Some "ghp_token" = Some token /\ token <> "" /\
       [saveSources_request [published_source] PUBLIC_GIST_ID "ghp_token"]
       = [saveSources_request [published_source] id token] /\
       Http.method (saveSources_request [published_source] id token) = Http.PATCH /\
       accepting_store (saveSources_request [published_source] id token)
       = Http.Resolved response /\
       Http.ok response = true /\
       Some "W/4" = Http.etagHeader response.
Proof.
  assert (Hsave : saveSources accepting_store [published_source]
                    (Some PUBLIC_GIST_ID) (Some "ghp_token")
                  = ([saveSources_request [published_source] PUBLIC_GIST_ID "ghp_token"],
                     inr (Some "W/4")))
    by reflexivity.
  split; [exact Hsave|].
  exact (saveSources_resolves_only_on_success accepting_store [published_source]
           (Some PUBLIC_GIST_ID) (Some "ghp_token") _ _ Hsave).
Defined.

Lemma saveSources_throws_witness :
  let thrown :=
    Error ("Lỗi API GitHub! status: 422, message: Validation Failed") in
  saveSources refusing_store [published_source] (Some PUBLIC_GIST_ID) (Some "ghp_token")
  = ([saveSources_request [published_source] PUBLIC_GIST_ID "ghp_token"], inl thrown)
  /\ exists m,
       thrown = Error m /\
       ((m = config_required_message
         /\ [saveSources_request [published_source] PUBLIC_GIST_ID "ghp_token"] = [])
        \/ Js.startsWith m "Lỗi API GitHub!" = true
        \/ m = save_failed_message).
Proof.
  cbn zeta.
  assert (Hsave : saveSources refusing_store [published_source]
                    (Some PUBLIC_GIST_ID) (Some "ghp_token")
                  = ([saveSources_request [published_source] PUBLIC_GIST_ID "ghp_token"],
                     inl (Error "Lỗi API GitHub! status: 422, message: Validation Failed")))
    by reflexivity.
  split; [exact Hsave|].
  exact (saveSources_throws refusing_store [published_source]
           (Some PUBLIC_GIST_ID) (Some "ghp_token") _ _ Hsave).
Defined.

(* ===================================================================== *)
(** ** Properties: saving, all outcomes                                   *)
(* ===================================================================== *)

(** A credential is stored: a configuration with a non-empty token. *)
Lemma credential_present (st : App.State) (config : AdminConfig.t) :
  App.adminConfig st = Some config ->
  AdminConfig.githubToken config <> "" ->
  credential_missing (App.adminConfig st) = false
  /\ Js.truthy (Some (AdminConfig.githubToken config)) = true.
Proof.
  intros -> Htoken. unfold credential_missing. cbn.
  destruct (AdminConfig.githubToken config); [congruence | easy].
Qed.

Section SavingOutcomes.

Variable remote : Http.Remote.
Variable now : Z.

(** What [handleSaveChanges] does once [saveSources] has settled. *)
Lemma handleSaveChanges_with_credential (st : App.State) (config : AdminConfig.t) :
  App.adminConfig st = Some config ->
  AdminConfig.githubToken config <> "" ->
  handleSaveChanges remote now st
  = let '(requests, outcome) :=
      saveSources remote (App.draftSources st) (Some PUBLIC_GIST_ID)
        (Some (AdminConfig.githubToken config)) in
    (map Fetch requests,
     match outcome with
     | inr newEtag =>
         addToast saved_message success now
           (App.setSourcesEtag newEtag (App.setSources (App.draftSources st) st))
     | inl err =>
         addToast ("Đã xảy ra lỗi khi lưu thay đổi: " +:+ message_of err) error now st
     end).
Proof.
  intros Hconfig Htoken. unfold handleSaveChanges.
  destruct (credential_present st config Hconfig Htoken) as [-> _].
  now rewrite Hconfig.
Qed.

Lemma saveSources_with_both (sources : list Source.t) (token : string) :
  token <> "" ->
  saveSources remote sources (Some PUBLIC_GIST_ID) (Some token)
  = ([saveSources_request sources PUBLIC_GIST_ID token],
     match saveSources_try (remote (saveSources_request sources PUBLIC_GIST_ID token)) with
     | inl e => inl (saveSources_catch e)
     | inr value => inr value
     end).
Proof. intros Htoken. now destruct token. Qed.

(** X8. When the store accepts the write, saving publishes the draft: the
    published collection becomes the draft, the revision tag becomes the
    one of the response, the draft stays, exactly one success
    notification is added, and the session is clean. *)
Theorem save_publishes_draft (st : App.State) (config : AdminConfig.t)
    (response : Http.Response) :
  App.adminConfig st = Some config ->
  AdminConfig.githubToken config <> "" ->
  remote (saveSources_request (App.draftSources st) PUBLIC_GIST_ID
            (AdminConfig.githubToken config))
  = Http.Resolved response ->
  Http.ok response = true ->
  let '(calls, st') := handleSaveChanges remote now st in
  calls = [Fetch (saveSources_request (App.draftSources st) PUBLIC_GIST_ID
                    (AdminConfig.githubToken config))] /\
  App.sources st' = App.draftSources st /\
  App.draftSources st' = App.draftSources st /\
  App.sourcesEtag st' = Http.etagHeader response /\
  App.toasts st' = App.toasts st ++ [ToastMessage.mk now saved_message success] /\
  hasUnsavedChanges st' = false.
Proof.
  intros Hconfig Htoken Hremote Hok.
  rewrite (handleSaveChanges_with_credential st config Hconfig Htoken).
  rewrite (saveSources_with_both _ _ Htoken), Hremote.
  unfold saveSources_try. rewrite Hok. cbn [negb map].
  repeat split. now apply clean_iff_equal.
Qed.

(** X9. When the store refuses the write with a readable answer, nothing
    is committed: the state is the one before, with one error
    notification that carries the status and the message of the answer
    ("undefined" when the answer has no message). *)
Theorem refused_save_is_reported (st : App.State) (config : AdminConfig.t)
    (response : Http.Response) (answer : Gist.Data) :
  App.adminConfig st = Some config ->
  AdminConfig.githubToken config <> "" ->
  remote (saveSources_request (App.draftSources st) PUBLIC_GIST_ID
            (AdminConfig.githubToken config))
  = Http.Resolved response ->
  Http.ok response = false ->
  Http.json response = Js.Returns answer ->
  snd (handleSaveChanges remote now st)
  = addToast
      ("Đã xảy ra lỗi khi lưu thay đổi: " +:+
       "Lỗi API GitHub! status: " +:+ Js.show (Http.status response) +:+
       ", message: " +:+ default "undefined" (Gist.message answer))
      error now st.
Proof.
  intros Hconfig Htoken Hremote Hok Hjson.
  rewrite (handleSaveChanges_with_credential st config Hconfig Htoken).
  rewrite (saveSources_with_both _ _ Htoken), Hremote.
  unfold saveSources_try. rewrite Hok, Hjson. cbn [negb snd].
  unfold saveSources_catch. cbn [message_of].
  now rewrite api_status_message_prefix.
Qed.

(** X10. Saving never touches the draft, the role or the conversations,
    and it ends in one of two ways: the draft is published with a success
    notification, or the published collection and the revision tag are
    as before with an error notification. *)
Theorem save_commits_or_keeps (st : App.State) :
  let st' := snd (handleSaveChanges remote now st) in
  App.draftSources st' = App.draftSources st /\
  App.isAdmin st' = App.isAdmin st /\
  App.adminMessages st' = App.adminMessages st /\
  App.guestMessages st' = App.guestMessages st /\
  App.error st' = App.error st /\
  ((App.sources st' = App.draftSources st /\
    App.toasts st' = App.toasts st ++ [ToastMessage.mk now saved_message success])
   \/ (App.sources st' = App.sources st /\
       App.sourcesEtag st' = App.sourcesEtag st /\
       exists text, App.toasts st' = App.toasts st ++ [ToastMessage.mk now text error])).
Proof.
  cbn zeta. unfold handleSaveChanges.
  destruct (credential_missing (App.adminConfig st)).
  - cbn [snd]. repeat split. right. repeat split. eauto.
  - destruct (saveSources _ _ _ _) as [requests [err | newEtag]]; cbn [snd].
    + repeat split. right. repeat split. eauto.
    + repeat split. left. easy.
Qed.

End SavingOutcomes.

Lemma save_publishes_draft_witness :
  App.adminConfig configured_session = Some (AdminConfig.mk "ghp_token" None) /\
  hasUnsavedChanges configured_session = true /\
  hasUnsavedChanges (snd (handleSaveChanges accepting_store 1700000030000 configured_session))
  = false.
Proof.
  split; [reflexivity|]. split; [vm_compute; reflexivity|].
  pose proof (save_publishes_draft accepting_store 1700000030000 configured_session
                (AdminConfig.mk "ghp_token" None)
                (Http.mkResponse 200 (Some "W/4") (Js.Returns no_document))
                eq_refl) as H.
  destruct (handleSaveChanges accepting_store 1700000030000 configured_session)
    as [calls st'].
  apply H; [discriminate | reflexivity | reflexivity].
Defined.

Lemma refused_save_is_reported_witness :
  Http.ok (Http.mkResponse 422 None
             (Js.Returns (Gist.mkData None (Some "Validation Failed")))) = false /\
  App.draftSources (snd (handleSaveChanges refusing_store 1700000030000 configured_session))
  = App.draftSources configured_session.
Proof.
  split; [reflexivity|].
  rewrite (refused_save_is_reported refusing_store 1700000030000 configured_session
             (AdminConfig.mk "ghp_token" None)
             (Http.mkResponse 422 None
                (Js.Returns (Gist.mkData None (Some "Validation Failed"))))
             (Gist.mkData None (Some "Validation Failed"))).
  - reflexivity.
  - reflexivity.
  - discriminate.
  - reflexivity.
  - reflexivity.
  - reflexivity.
Defined.

(* ===================================================================== *)
(** ** Properties: loading and polling, all outcomes                      *)
(* ===================================================================== *)

Lemma public_gist_id_nonempty : PUBLIC_GIST_ID <> "".
Proof. discriminate. Qed.

Section Synchronising.

Variable remote : Http.Remote.
Variable now : Z.

(** X11. Whatever the store does, the initial load sends one
    unconditional request and leaves a session that is ready and clean
    with a published collection that is not empty; an error description
    is recorded exactly when the load did not succeed. *)
Theorem initial_load_leaves_clean_session (st : App.State) :
  let '(calls, st') := fetchInitialSources remote st in
  calls = [Fetch (getSources_request PUBLIC_GIST_ID None)] /\
  Http.headers (getSources_request PUBLIC_GIST_ID None)
  = [("Accept", "application/vnd.github.v3+json")] /\
  App.isFetchingSources st' = false /\
  App.draftSources st' = App.sources st' /\
  App.sources st' <> [] /\
  hasUnsavedChanges st' = false /\
  (App.error st' = None <-> load_succeeds remote).
Proof.
  unfold fetchInitialSources, load_succeeds.
  rewrite (getSources_with_id remote None _ public_gist_id_nonempty).
  destruct (getSources_try _ _ _) as [e | [status fetched newEtag]] eqn:Htry;
    cbn [snd map].
  - do 4 (split; [reflexivity|]). split; [discriminate|].
    split; [now apply clean_iff_equal|].
    split; [discriminate | intros (? & ? & ?); discriminate].
  - destruct (getSources_try_resolved _ _ _ _ Htry)
      as [(Hstatus & Hsources & _) | (Hstatus & l & Hsources & Hl)];
      cbn [Fetched.status Fetched.sources] in *; subst.
    + do 4 (split; [reflexivity|]). split; [discriminate|].
      split; [now apply clean_iff_equal|].
      split; [discriminate | intros (? & ? & ?); discriminate].
    + do 4 (split; [reflexivity|]). split; [exact Hl|].
      split; [now apply clean_iff_equal|].
      split; [intros _; eauto | reflexivity].
Qed.

(** X12. A poll that the store answers with "not modified" sends the held
    revision tag as the condition of one request and changes nothing. *)
Theorem not_modified_poll_changes_nothing (st : App.State) (tag : string)
    (response : Http.Response) :
  hasUnsavedChanges st = false ->
  App.sourcesEtag st = Some tag ->
  tag <> "" ->
  remote (getSources_request PUBLIC_GIST_ID (Some tag)) = Http.Resolved response ->
  Http.status response = 304 ->
  pollingTick remote now st = ([Fetch (getSources_request PUBLIC_GIST_ID (Some tag))], st)
  /\ In ("If-None-Match", tag)
        (Http.headers (getSources_request PUBLIC_GIST_ID (Some tag))).
Proof.
  intros Hclean Htag Hne Hremote Hstatus. split.
  - unfold pollingTick. rewrite Hclean, Htag.
    assert (Htruthy : Js.truthy (Some tag) = true) by now destruct tag.
    rewrite Htruthy. cbn [negb orb].
    rewrite (getSources_with_id remote (Some tag) _ public_gist_id_nonempty), Hremote.
    unfold getSources_try. rewrite Hstatus. reflexivity.
  - unfold getSources_request. cbn [Http.headers].
    destruct tag; [congruence|]. cbn. tauto.
Qed.

(** X13. A poll whose fetch throws is silent: the whole state, the error
    description and the notifications included, is as before. *)
Theorem failed_poll_is_silent (st : App.State) (e : Exception) :
  snd (getSources remote (Some PUBLIC_GIST_ID) (App.sourcesEtag st)) = inl e ->
  snd (pollingTick remote now st) = st.
Proof.
  intros Hfail.
  destruct (getSources remote (Some PUBLIC_GIST_ID) (App.sourcesEtag st))
    as [requests outcome] eqn:Hget.
  cbn [snd] in Hfail. subst outcome.
  apply (poll_without_news remote now st requests (inl e) Hget).
  discriminate.
Qed.

(** X14. No tick ever records an error description, touches the role, the
    configuration or the admin conversation, or sends more than one
    request; the only notification it can add is the informational one
    about an update. *)
Theorem polling_never_reports (st : App.State) :
  let '(calls, st') := pollingTick remote now st in
  (length calls <= 1)%nat /\
  App.error st' = App.error st /\
  App.isAdmin st' = App.isAdmin st /\
  App.adminConfig st' = App.adminConfig st /\
  App.adminMessages st' = App.adminMessages st /\
  App.isLoading st' = App.isLoading st /\
  (App.toasts st' = App.toasts st
   \/ App.toasts st' = App.toasts st ++ [update_toast now (App.isAdmin st)]).
Proof.
  unfold pollingTick.
  destruct (hasUnsavedChanges st || negb (Js.truthy (App.sourcesEtag st))).
  { repeat split; [cbn; lia | now left]. }
  rewrite (getSources_with_id remote _ _ public_gist_id_nonempty).
  destruct (getSources_try _ _ _) as [e | [status [newSources|] newEtag]];
    cbn [map length]; try (repeat split; [lia | now left]).
  destruct (status =? 200); [|repeat split; [lia | now left]].
  unfold update_toast.
  destruct (App.isAdmin st) eqn:Hadmin; repeat split; try lia; try easy; now right.
Qed.

(** After a poll has brought an admin a new collection the session
    is clean again, so the next tick polls. *)
Theorem admin_update_keeps_session_clean (st : App.State)
    (requests : list Http.Request) (newSources : list Source.t)
    (newEtag : option string) :
  App.isAdmin st = true ->
  hasUnsavedChanges st = false ->
  Js.truthy (App.sourcesEtag st) = true ->
  getSources remote (Some PUBLIC_GIST_ID) (App.sourcesEtag st)
  = (requests, inr (Fetched.mk 200 (Some newSources) newEtag)) ->
  hasUnsavedChanges (snd (pollingTick remote now st)) = false.
Proof.
  intros Hadmin Hclean Htag Hget. apply clean_iff_equal.
  unfold pollingTick. rewrite Hclean, Htag, Hget, Hadmin. reflexivity.
Qed.

(** X15. For a guest a poll replaces the published collection but not the
    draft; when the two differ afterwards the session counts as dirty, and
    every later tick is skipped, whatever the store holds by then. *)
Theorem guest_update_ends_polling (st : App.State)
    (requests : list Http.Request) (newSources : list Source.t)
    (newEtag : option string) :
  App.isAdmin st = false ->
  hasUnsavedChanges st = false ->
  Js.truthy (App.sourcesEtag st) = true ->
  getSources remote (Some PUBLIC_GIST_ID) (App.sourcesEtag st)
  = (requests, inr (Fetched.mk 200 (Some newSources) newEtag)) ->
  newSources <> App.draftSources st ->
  forall (remote' : Http.Remote) (later : Z),
    pollingTick remote' later (snd (pollingTick remote now st))
    = ([], snd (pollingTick remote now st)).
Proof.
  intros Hguest Hclean Htag Hget Hnew remote' later.
  assert (Hdirty : hasUnsavedChanges (snd (pollingTick remote now st)) = true).
  { apply not_false_iff_true. intros Hc. apply clean_iff_equal in Hc.
    unfold pollingTick in Hc. rewrite Hclean, Htag, Hget, Hguest in Hc.
    cbn in Hc. congruence. }
  unfold pollingTick at 1. now rewrite Hdirty.
Qed.

End Synchronising.

Lemma not_modified_poll_changes_nothing_witness :
  hasUnsavedChanges admin_session = false /\
  pollingTick unchanged_store 1700000020000 admin_session
  = ([Fetch (getSources_request PUBLIC_GIST_ID (Some "W/1"))], admin_session).
Proof.
  assert (Hclean : hasUnsavedChanges admin_session = false) by (vm_compute; reflexivity).
  split; [exact Hclean|].
  refine (proj1 (not_modified_poll_changes_nothing unchanged_store 1700000020000
                   admin_session "W/1"
                   (Http.mkResponse 304 None (Js.Returns no_document))
                   Hclean eq_refl _ eq_refl eq_refl)).
  discriminate.
Defined.

Lemma failed_poll_is_silent_witness :
  snd (getSources (failing_with 500) (Some PUBLIC_GIST_ID) (App.sourcesEtag admin_session))
  = inl (Error (api_error_message 500))
  /\ snd (pollingTick (failing_with 500) 1700000020000 admin_session) = admin_session.
Proof.
  assert (Hfail : snd (getSources (failing_with 500) (Some PUBLIC_GIST_ID)
                         (App.sourcesEtag admin_session))
                  = inl (Error (api_error_message 500))) by reflexivity.
  split; [exact Hfail|].
  exact (failed_poll_is_silent (failing_with 500) 1700000020000 admin_session _ Hfail).
Defined.

Lemma admin_update_keeps_session_clean_witness :
  App.isAdmin admin_session = true /\
  hasUnsavedChanges (snd (pollingTick pushing_store 1700000020000 admin_session)) = false.
Proof.
  split; [reflexivity|].
  refine (admin_update_keeps_session_clean pushing_store 1700000020000 admin_session
            [getSources_request PUBLIC_GIST_ID (Some "W/1")] [fresh_source] (Some "W/2")
            eq_refl _ eq_refl _).
  - vm_compute. reflexivity.
  - vm_compute. reflexivity.
Defined.

Lemma guest_update_ends_polling_witness :
  App.isAdmin guest_session = false /\
  [fresh_source] <> App.draftSources guest_session /\
  pollingTick pushing_store 1700000040000
    (snd (pollingTick pushing_store 1700000020000 guest_session))
  = ([], snd (pollingTick pushing_store 1700000020000 guest_session)).
Proof.
  assert (Hnew : [fresh_source] <> App.draftSources guest_session)
    by (vm_compute; discriminate).
  split; [reflexivity|]. split; [exact Hnew|].
  refine (guest_update_ends_polling pushing_store 1700000020000 guest_session
            [getSources_request PUBLIC_GIST_ID (Some "W/1")] [fresh_source]
            (Some "W/2") eq_refl _ eq_refl _ Hnew pushing_store 1700000040000).
  - vm_compute. reflexivity.
  - vm_compute. reflexivity.
Defined.

(* ===================================================================== *)
(** ** Properties: editing and cancelling                                 *)
(* ===================================================================== *)

Section Editing.

Variables (title : string) (content : Content.t) (fileName : option string).
Variable now : Z.

(** X16. Adding and deleting change the draft and nothing else: putting
    the old draft back gives the state before the call.  In particular
    the published collection and the revision tag are never touched by
    an edit. *)
Theorem edits_touch_only_the_draft (id : string) (st : App.State) :
  App.setDraftSources (App.draftSources st) (addSource title content fileName now st) = st
  /\ App.setDraftSources (App.draftSources st) (deleteSource id st) = st.
Proof.
  unfold addSource, deleteSource.
  destruct st as [[] ? ? ? ? ? ? ? ? ? ? ?]; split; reflexivity.
Qed.

(** A guest cannot edit: for a guest both calls leave the state as
    it is. *)
Theorem guest_cannot_edit (id : string) (st : App.State) :
  App.isAdmin st = false ->
  addSource title content fileName now st = st /\ deleteSource id st = st.
Proof. unfold addSource, deleteSource. now intros ->. Qed.

(** X17. For an admin, deleting an id gives the draft that keeps
    exactly the sources with another id, each as often as it occurred
    and in their order; so it leaves no source with that id in the
    draft, keeps every other source (a source is in the new draft
    exactly when it was in the old one with another id), never makes the
    draft longer, and deleting the same id again changes nothing. *)
Theorem deleteSource_removes_exactly (id : string) (st : App.State) :
  App.isAdmin st = true ->
  let st' := deleteSource id st in
  App.draftSources st'
  = filter (fun s => Source.id s <> id) (App.draftSources st) /\
  (forall before s after,
      App.draftSources st = before ++ s :: after ->
      App.draftSources st'
      = filter (fun s => Source.id s <> id) before
        ++ (if String.eqb (Source.id s) id then [] else [s])
        ++ filter (fun s => Source.id s <> id) after) /\
  Forall (fun s => Source.id s <> id) (App.draftSources st') /\
  (forall s, In s (App.draftSources st')
             <-> In s (App.draftSources st) /\ Source.id s <> id) /\
  sublist (App.draftSources st') (App.draftSources st) /\
  deleteSource id st' = st'.
Proof.
  intros Hadmin. cbn zeta. unfold deleteSource. rewrite Hadmin. cbn [negb].
  cbn [App.draftSources App.setDraftSources App.isAdmin]. rewrite Hadmin. cbn [negb].
  split; [reflexivity|]. split; [|split; [|split; [|split]]].
  - intros before s after ->. rewrite filter_app. f_equal.
    destruct (String.eqb (Source.id s) id) eqn:Hs.
    + apply String.eqb_eq in Hs. rewrite filter_cons_False by tauto. reflexivity.
    + apply String.eqb_neq in Hs. now rewrite filter_cons_True by exact Hs.
  - apply Forall_forall. intros s Hs.
    apply list_elem_of_filter in Hs. tauto.
  - intros s. rewrite <- !list_elem_of_In, list_elem_of_filter. tauto.
  - apply sublist_filter.
  - rewrite setDraftSources_twice. f_equal.
    apply list_filter_filter_l. tauto.
Qed.

(** X18. Adding a source to a clean session and then cancelling (and
    confirming) gives back the state before the addition. *)
Theorem add_then_cancel_restores (st : App.State) :
  hasUnsavedChanges st = false ->
  handleCancelChanges true (addSource title content fileName now st) = st.
Proof.
  intros Hclean. apply clean_iff_equal in Hclean.
  assert (Hsame : forall st',
             App.setDraftSources (App.draftSources st) st' = st ->
             App.sources st' = App.sources st ->
             handleCancelChanges true st' = st).
  { intros st' Hback Hs. unfold handleCancelChanges.
    rewrite andb_true_r.
    assert (Hset : App.setDraftSources (App.sources st') st' = st).
    { rewrite Hs, Hclean. exact Hback. }
    destruct (hasUnsavedChanges st'); cbn [negb]; exact Hset. }
  apply Hsame.
  - unfold addSource. destruct st as [[] ? ? ? ? ? ? ? ? ? ? ?]; reflexivity.
  - unfold addSource. destruct (negb (App.isAdmin st)); reflexivity.
Qed.

End Editing.

(** X19. A confirmed cancel always ends in a clean session whose draft is
    the published collection, and no cancel, confirmed or not, changes
    the published collection, the revision tag or anything but the
    draft. *)
Theorem cancel_touches_only_the_draft (confirmed : bool) (st : App.State) :
  App.setDraftSources (App.draftSources st) (handleCancelChanges confirmed st) = st
  /\ App.draftSources (handleCancelChanges true st) = App.sources st
  /\ hasUnsavedChanges (handleCancelChanges true st) = false.
Proof.
  split; [|split].
  - unfold handleCancelChanges.
    destruct (hasUnsavedChanges st && confirmed), (negb (hasUnsavedChanges st));
      now destruct st.
  - unfold handleCancelChanges. destruct (hasUnsavedChanges st); reflexivity.
  - apply clean_iff_equal. unfold handleCancelChanges.
    destruct (hasUnsavedChanges st); reflexivity.
Qed.

Lemma guest_cannot_edit_witness :
  App.isAdmin guest_session = false /\
  addSource "T" (Content.mk "text/plain" "d") None same_millisecond guest_session
  = guest_session.
Proof.
  split; [reflexivity|].
  exact (proj1 (guest_cannot_edit "T" (Content.mk "text/plain" "d") None
                  same_millisecond (source_id_at same_millisecond)
                  guest_session eq_refl)).
Defined.

Lemma deleteSource_removes_exactly_witness :
  App.isAdmin configured_session = true /\
  App.draftSources (deleteSource (source_id_at same_millisecond) configured_session)
  = [published_source] /\
  Forall (fun s => Source.id s <> source_id_at same_millisecond)
    (App.draftSources (deleteSource (source_id_at same_millisecond) configured_session)).
Proof.
  split; [reflexivity|]. split; [vm_compute; reflexivity|].
  exact (proj1 (proj2 (proj2 (deleteSource_removes_exactly
                                (source_id_at same_millisecond)
                                configured_session eq_refl)))).
Defined.

Lemma add_then_cancel_restores_witness :
  hasUnsavedChanges admin_session = false /\
  handleCancelChanges true
    (addSource "T" (Content.mk "text/plain" "d") None same_millisecond admin_session)
  = admin_session.
Proof.
  assert (Hclean : hasUnsavedChanges admin_session = false) by (vm_compute; reflexivity).
  split; [exact Hclean|].
  exact (add_then_cancel_restores "T" (Content.mk "text/plain" "d") None
           same_millisecond admin_session Hclean).
Defined.

(* ===================================================================== *)
(** ** Properties: asking a question, all outcomes                        *)
(* ===================================================================== *)

Section AskingOutcomes.

Variable querySources : Answering.
Variables now later : Z.
Variable question : string.

(** X20. When the answering service throws, the question stays in the
    log with no answer after it, the service was called once with the
    published collection, and the error shown is the thrown message, or
    the "unknown error" text when that message is empty. *)
Theorem service_failure_is_reported (st : App.State) (thrown : string) :
  App.sources st <> [] ->
  querySources question (App.sources st) = Js.Throws thrown ->
  let '(calls, st') := sendMessage querySources now later question st in
  calls = [Query question (App.sources st)] /\
  App.messages st' = App.messages st ++ [userMessage_at now question] /\
  App.isLoading st' = false /\
  (thrown = "" -> App.error st' = Some unknown_error_message) /\
  (thrown <> "" -> App.error st' = Some thrown).
Proof.
  intros Hnonempty Hthrows. unfold sendMessage. rewrite Hthrows.
  destruct (App.sources st) as [|s0 srcs] eqn:Hsrc; [congruence|].
  cbn [length Nat.eqb].
  unfold userMessage_at, appendMessage, App.messages, sendMessage_catch.
  destruct st as [[] ? ? ? ? ? ? ? ? ? ? ?]; cbn in *; subst;
    (repeat split; [intros ->; reflexivity | intros Hm; now destruct thrown]).
Qed.

(** X21. Every call of [sendMessage] appends the question to the active
    log and then does exactly one of two things: it appends one answer
    and shows no error, or it appends nothing more and shows an error.
    It calls the service at most once, with the published collection,
    and not at all when that collection is empty; it never changes the
    collections, the revision tag, the role or the other role's log, and
    it always ends with the loading flag off. *)
Theorem question_is_answered_or_refused (st : App.State) :
  let '(calls, st') := sendMessage querySources now later question st in
  (App.sources st = [] /\ calls = []
   \/ App.sources st <> [] /\ calls = [Query question (App.sources st)]) /\
  App.setIsLoading (App.isLoading st)
    (App.setError (App.error st)
       (App.setAdminMessages (App.adminMessages st)
          (App.setGuestMessages (App.guestMessages st) st'))) = st /\
  App.isLoading st' = false /\
  (if App.isAdmin st then App.guestMessages st' = App.guestMessages st
   else App.adminMessages st' = App.adminMessages st) /\
  ((App.error st' = None /\
    exists answer citations,
      App.messages st' =
        App.messages st ++
        [userMessage_at now question;
         ChatMessage.mk ("msg-" +:+ Js.show (later + 1)) model answer (Some citations)])
   \/ (App.error st' <> None /\
       App.messages st' = App.messages st ++ [userMessage_at now question])).
Proof.
  unfold sendMessage.
  destruct (App.sources st) as [|s0 srcs] eqn:Hsrc; cbn [length Nat.eqb].
  - unfold userMessage_at, appendMessage, App.messages, sendMessage_catch.
    destruct st as [[] ? ? ? ? ? ? ? ? ? ? ?]; cbn in *; subst;
      (split; [left; easy|]); repeat split; right; easy.
  - destruct (querySources question (s0 :: srcs)) as [m | [answer rawCitations]].
    + unfold userMessage_at, appendMessage, App.messages, sendMessage_catch.
      destruct st as [[] ? ? ? ? ? ? ? ? ? ? ?]; cbn in *; subst;
        (split; [right; easy|]); repeat split; right; easy.
    + unfold userMessage_at, appendMessage, App.messages.
      destruct st as [[] ? ? ? ? ? ? ? ? ? ? ?]; cbn in *; subst;
        (split; [right; easy|]); repeat split; left;
        (split; [reflexivity|]); do 2 eexists; now rewrite <- app_assoc.
Qed.

End AskingOutcomes.

Section Resolving.

Variable sources : list Source.t.
Variable cit : Citation.raw.

Lemma or_else_nonempty (x : option string) (fallback : string) :
  fallback <> "" -> or_else x fallback <> "".
Proof. intros Hf. destruct x as [[|c s]|]; cbn; easy. Qed.

(** X22. A resolved citation keeps the id and the quote it came with; its
    title is never empty, and it is either the fallback or the title of a
    source of the collection that has the cited id. *)
Theorem resolved_citation_is_titled :
  let resolved := resolveCitation sources cit in
  Citation.sourceId resolved = Citation.rawSourceId cit /\
  Citation.quote resolved = Citation.rawQuote cit /\
  Citation.sourceTitle resolved <> "" /\
  (Citation.sourceTitle resolved = unknown_source_title
   \/ exists s, In s sources /\ Source.id s = Citation.rawSourceId cit
                /\ Source.title s = Citation.sourceTitle resolved).
Proof.
  cbn zeta. unfold resolveCitation. cbn [Citation.sourceId Citation.quote Citation.sourceTitle].
  split; [reflexivity|]. split; [reflexivity|].
  split; [apply or_else_nonempty; discriminate|].
  destruct (find _ sources) as [s|] eqn:Hfind; [|now left].
  apply find_some in Hfind. destruct Hfind as [Hin Hid].
  apply String.eqb_eq in Hid. cbn.
  destruct (Source.title s) as [|c t] eqn:Htitle; [now left|].
  right. exists s. rewrite Htitle. easy.
Qed.

(** X23. When several sources carry the cited id, the first one in the
    order of the collection decides: if its title is not empty, that is
    the title of the citation. *)
Theorem first_source_gives_the_title (before after : list Source.t) (s : Source.t) :
  sources = before ++ s :: after ->
  Forall (fun x => Source.id x <> Citation.rawSourceId cit) before ->
  Source.id s = Citation.rawSourceId cit ->
  Source.title s <> "" ->
  Citation.sourceTitle (resolveCitation sources cit) = Source.title s.
Proof.
  intros Hsplit Hbefore Hid Htitle. unfold resolveCitation.
  rewrite (find_first_match sources cit before after s Hsplit Hbefore Hid).
  cbn. now destruct (Source.title s).
Qed.

End Resolving.

(** A service that is down. *)
Lemma service_failure_is_reported_witness :
  App.sources admin_session <> [] /\
  App.error (snd (sendMessage (fun _ _ => Js.Throws "") asked answered "x" admin_session))
  = Some unknown_error_message.
Proof.
  assert (Hne : App.sources admin_session <> []) by (vm_compute; discriminate).
  split; [exact Hne|].
  pose proof (service_failure_is_reported (fun _ _ => Js.Throws "") asked answered "x"
                admin_session "" Hne eq_refl) as H.
  destruct (sendMessage (fun _ _ => Js.Throws "") asked answered "x" admin_session)
    as [calls st'].
  destruct H as (_ & _ & _ & Hempty & _). exact (Hempty eq_refl).
Defined.

Lemma first_source_gives_the_title_witness :
  Citation.sourceTitle
    (resolveCitation [published_source; untitled_source; published_source]
       (Citation.mkRaw (source_id_at 1690000000000) "a quote"))
  = "Old".
Proof.
  apply (first_source_gives_the_title
           [published_source; untitled_source; published_source]
           (Citation.mkRaw (source_id_at 1690000000000) "a quote")
           [] [untitled_source; published_source] published_source).
  - reflexivity.
  - constructor.
  - reflexivity.
  - discriminate.
Defined.

(* ===================================================================== *)
(** ** Properties: roles, notes and notifications                         *)
(* ===================================================================== *)

(** X24. A refused login changes nothing.  An accepted one makes the
    session an admin session with the login dialog closed, and puts the
    published collection into the draft, so that the session is clean;
    the published collection, the conversations and the notes are as
    before. *)
Theorem login_resynchronises_draft (username password : string) (st : Ui.State) :
  let '(accepted, st') := handleLoginAttempt username password st in
  (accepted = false /\ st' = st)
  \/ (accepted = true /\
      App.isAdmin (Ui.app st') = true /\
      Ui.isLoginModalOpen st' = false /\
      App.sources (Ui.app st') = App.sources (Ui.app st) /\
      App.draftSources (Ui.app st') = App.sources (Ui.app st) /\
      hasUnsavedChanges (Ui.app st') = false /\
      App.adminMessages (Ui.app st') = App.adminMessages (Ui.app st) /\
      App.guestMessages (Ui.app st') = App.guestMessages (Ui.app st) /\
      Ui.adminNotes st' = Ui.adminNotes st /\
      Ui.guestNotes st' = Ui.guestNotes st).
Proof.
  unfold handleLoginAttempt.
  destruct (String.eqb username "tinhocsaoviet" && String.eqb password "Saoviet1");
    [right | left; easy].
  repeat split. now apply clean_iff_equal.
Qed.

(** Logging out never touches the published collection, the draft,
    the revision tag, the admin conversation or the admin notes.
    Declined, it changes nothing; confirmed, it leaves a guest session
    with an empty guest conversation and no guest notes. *)
Theorem logout_keeps_admin_data (confirmed : bool) (st : Ui.State) :
  let st' := handleLogout confirmed st in
  App.sources (Ui.app st') = App.sources (Ui.app st) /\
  App.draftSources (Ui.app st') = App.draftSources (Ui.app st) /\
  App.sourcesEtag (Ui.app st') = App.sourcesEtag (Ui.app st) /\
  App.adminMessages (Ui.app st') = App.adminMessages (Ui.app st) /\
  Ui.adminNotes st' = Ui.adminNotes st /\
  (if confirmed
   then App.isAdmin (Ui.app st') = false /\
        App.guestMessages (Ui.app st') = [] /\
        Ui.guestNotes st' = []
   else st' = st).
Proof. destruct confirmed; cbn; repeat split. Qed.

(** X25. The draft survives a logout: an admin who logs out with unsaved
    changes leaves a guest session that still counts as dirty, in which
    every tick of the poll is skipped. *)
Theorem logout_with_unsaved_changes_ends_polling (confirmed : bool) (st : Ui.State)
    (remote : Http.Remote) (now : Z) :
  hasUnsavedChanges (Ui.app st) = true ->
  pollingTick remote now (Ui.app (handleLogout confirmed st))
  = ([], Ui.app (handleLogout confirmed st)).
Proof.
  intros Hdirty.
  assert (Hsame : hasUnsavedChanges (Ui.app (handleLogout confirmed st)) = true).
  { rewrite <- Hdirty. now destruct confirmed. }
  unfold pollingTick. now rewrite Hsame.
Qed.

Lemma logout_with_unsaved_changes_ends_polling_witness :
  hasUnsavedChanges (Ui.app ui_dirty_admin) = true /\
  App.isAdmin (Ui.app (handleLogout true ui_dirty_admin)) = false /\
  pollingTick pushing_store 1700000020000 (Ui.app (handleLogout true ui_dirty_admin))
  = ([], Ui.app (handleLogout true ui_dirty_admin)).
Proof.
  assert (Hdirty : hasUnsavedChanges (Ui.app ui_dirty_admin) = true)
    by (vm_compute; reflexivity).
  split; [exact Hdirty|]. split; [reflexivity|].
  exact (logout_with_unsaved_changes_ends_polling true ui_dirty_admin pushing_store
           1700000020000 Hdirty).
Defined.

Section Notes.

Variable message : ChatMessage.t.
Variable now : Z.

Lemma existsb_noted (notes : list Note.t) :
  existsb (fun note => String.eqb (Note.sourceMessageId note) (ChatMessage.id message)) notes
  = true
  <-> In (ChatMessage.id message) (map Note.sourceMessageId notes).
Proof.
  rewrite existsb_exists, in_map_iff. split.
  - intros (n & Hin & Heq). apply String.eqb_eq in Heq. eauto.
  - intros (n & Heq & Hin). exists n. split; [exact Hin|]. now apply String.eqb_eq.
Qed.

Lemma one_note_per_message_cons (notes : list Note.t) :
  one_note_per_message notes ->
  existsb (fun note => String.eqb (Note.sourceMessageId note) (ChatMessage.id message)) notes
  = false ->
  one_note_per_message
    (Note.mk (note_id_at now) (ChatMessage.text message) (ChatMessage.id message) :: notes).
Proof.
  intros Hnotes Hnew. unfold one_note_per_message. cbn [map Note.sourceMessageId].
  apply NoDup_cons. split; [|exact Hnotes].
  intros Hin. apply list_elem_of_In, existsb_noted in Hin. congruence.
Qed.

Lemma one_note_per_message_filter (P : Note.t -> Prop)
    `{forall n, Decision (P n)} (notes : list Note.t) :
  one_note_per_message notes -> one_note_per_message (filter P notes).
Proof.
  unfold one_note_per_message. induction notes as [|n notes IH]; [easy|].
  cbn [map]. intros Hnodup. apply NoDup_cons in Hnodup.
  destruct Hnodup as [Hn Hrest].
  destruct (decide (P n)) as [Hp | Hp].
  - rewrite filter_cons_True by exact Hp. cbn [map].
    apply NoDup_cons. split; [|now apply IH].
    intros Hin. apply Hn.
    apply list_elem_of_In, in_map_iff in Hin. destruct Hin as (x & Hx & Hin).
    apply list_elem_of_In, in_map_iff. exists x. split; [exact Hx|].
    apply list_elem_of_In. apply list_elem_of_In in Hin.
    apply list_elem_of_filter in Hin. tauto.
  - rewrite filter_cons_False by exact Hp. now apply IH.
Qed.

(** The two ways [addNote] can go. *)
Lemma addNote_cases (st : Ui.State) :
  (existsb (fun note => String.eqb (Note.sourceMessageId note) (ChatMessage.id message))
     (Ui.notes st) = true
   /\ addNote message now st = st)
  \/ (existsb (fun note => String.eqb (Note.sourceMessageId note) (ChatMessage.id message))
        (Ui.notes st) = false
      /\ addNote message now st
         = let newNote :=
             Note.mk (note_id_at now) (ChatMessage.text message) (ChatMessage.id message) in
           if App.isAdmin (Ui.app st)
           then Ui.setAdminNotes (newNote :: Ui.adminNotes st) st
           else Ui.setGuestNotes (newNote :: Ui.guestNotes st) st).
Proof.
  unfold addNote, Ui.notes.
  destruct (App.isAdmin (Ui.app st));
    match goal with |- context [existsb ?f ?l] => destruct (existsb f l) end;
    [left | right | left | right]; easy.
Qed.

(** X26. "At most one note per message" is an invariant of the
    component: when it holds of the admin's and of the guest's notes, it
    still holds after a note is added or deleted, after a login attempt,
    after a logout and after a new chat is started. *)
Theorem one_note_per_message_is_kept (st : Ui.State) (id username password : string)
    (confirmed : bool) :
  NotesWellFormed st ->
  NotesWellFormed (addNote message now st) /\
  NotesWellFormed (deleteNote id st) /\
  NotesWellFormed (snd (handleLoginAttempt username password st)) /\
  NotesWellFormed (handleLogout confirmed st) /\
  NotesWellFormed (startNewChat confirmed st).
Proof.
  intros [Hadmin Hguest]. unfold NotesWellFormed. repeat split.
  - unfold addNote. destruct (App.isAdmin (Ui.app st));
      destruct (existsb _ _) eqn:Hnoted; cbn; try assumption.
    now apply one_note_per_message_cons.
  - unfold addNote. destruct (App.isAdmin (Ui.app st));
      destruct (existsb _ _) eqn:Hnoted; cbn; try assumption.
    now apply one_note_per_message_cons.
  - unfold deleteNote. destruct (App.isAdmin (Ui.app st)); cbn; try assumption.
    now apply one_note_per_message_filter.
  - unfold deleteNote. destruct (App.isAdmin (Ui.app st)); cbn; try assumption.
    now apply one_note_per_message_filter.
  - unfold handleLoginAttempt. now destruct (_ && _).
  - unfold handleLoginAttempt. now destruct (_ && _).
  - now destruct confirmed.
  - destruct confirmed; [apply NoDup_nil_2 | assumption].
  - now destruct confirmed.
  - now destruct confirmed.
Qed.

(** X27. After [addNote] the message has a note among the notes of the
    active role, with the text of the message; adding a note for the
    same message again, at any later time, changes nothing; and the
    call touches neither the other role's notes nor anything else of the
    state. *)
Theorem addNote_notes_the_message_once (st : Ui.State) :
  let st' := addNote message now st in
  (exists note, In note (Ui.notes st')
                /\ Note.sourceMessageId note = ChatMessage.id message) /\
  (forall later, addNote message later st' = st') /\
  Ui.app st' = Ui.app st /\
  (if App.isAdmin (Ui.app st) then Ui.guestNotes st' = Ui.guestNotes st
   else Ui.adminNotes st' = Ui.adminNotes st) /\
  (~ In (ChatMessage.id message) (map Note.sourceMessageId (Ui.notes st)) ->
   Ui.notes st'
   = Note.mk (note_id_at now) (ChatMessage.text message) (ChatMessage.id message)
     :: Ui.notes st).
Proof.
  cbn zeta.
  destruct (addNote_cases st) as [[Hnoted Hsame] | [Hfresh Hadded]].
  - rewrite Hsame. split; [|split; [|split; [|split]]].
    + apply existsb_noted, in_map_iff in Hnoted.
      destruct Hnoted as (n & Hn & Hin). eauto.
    + intros later. unfold addNote. fold (Ui.notes st). now rewrite Hnoted.
    + reflexivity.
    + now destruct (App.isAdmin (Ui.app st)).
    + intros Hnot. apply existsb_noted in Hnoted. contradiction.
  - rewrite Hadded. unfold Ui.notes.
    destruct (App.isAdmin (Ui.app st)) eqn:Hadmin; cbn; rewrite ?Hadmin;
      (split; [|split; [|split; [|split]]]); try reflexivity.
    + eexists. split; [left; reflexivity | reflexivity].
    + intros later. unfold addNote. cbn. rewrite Hadmin. cbn.
      now rewrite String.eqb_refl.
    + eexists. split; [left; reflexivity | reflexivity].
    + intros later. unfold addNote. cbn. rewrite Hadmin. cbn.
      now rewrite String.eqb_refl.
Qed.

End Notes.

(** X28. Starting a new chat, once confirmed, empties the conversation of
    the active role and nothing else: the other role's conversation, the
    notes of both roles (also those taken from the messages that are
    gone) and the collections stay.  Declined, it changes nothing. *)
Theorem new_chat_clears_active_log (confirmed : bool) (st : Ui.State) :
  let st' := startNewChat confirmed st in
  if confirmed
  then App.messages (Ui.app st') = [] /\
       (if App.isAdmin (Ui.app st)
        then App.guestMessages (Ui.app st') = App.guestMessages (Ui.app st)
        else App.adminMessages (Ui.app st') = App.adminMessages (Ui.app st)) /\
       Ui.adminNotes st' = Ui.adminNotes st /\
       Ui.guestNotes st' = Ui.guestNotes st /\
       App.sources (Ui.app st') = App.sources (Ui.app st) /\
       App.draftSources (Ui.app st') = App.draftSources (Ui.app st)
  else st' = st.
Proof.
  destruct confirmed; [|reflexivity]. cbn zeta. unfold startNewChat, App.messages.
  destruct st as [[[] ? ? ? ? ? ? ? ? ? ? ?] ? ? ? ?]; cbn; repeat split.
Qed.

Lemma one_note_per_message_is_kept_witness :
  NotesWellFormed ui_with_notes /\
  Ui.adminNotes (addNote an_answer 1700000050000 ui_with_notes)
  = Ui.adminNotes ui_with_notes /\
  length (Ui.adminNotes (addNote a_later_answer 1700000050000 ui_with_notes)) = 3%nat /\
  length (Ui.adminNotes (deleteNote (note_id_at 1700000001000) ui_with_notes)) = 1%nat /\
  NotesWellFormed (addNote an_answer 1700000050000 ui_with_notes) /\
  NotesWellFormed (addNote a_later_answer 1700000050000 ui_with_notes) /\
  NotesWellFormed (deleteNote (note_id_at 1700000001000) ui_with_notes).
Proof.
  assert (Hwf : NotesWellFormed ui_with_notes).
  { split; apply (bool_decide_unpack _); vm_compute; exact I. }
  split; [exact Hwf|].
  split; [vm_compute; reflexivity|].
  split; [vm_compute; reflexivity|].
  split; [vm_compute; reflexivity|].
  split; [|split].
  - exact (proj1 (one_note_per_message_is_kept an_answer 1700000050000 ui_with_notes
                    "" "" "" false Hwf)).
  - exact (proj1 (one_note_per_message_is_kept a_later_answer 1700000050000
                    ui_with_notes "" "" "" false Hwf)).
  - exact (proj1 (proj2 (one_note_per_message_is_kept an_answer 1700000050000
                           ui_with_notes (note_id_at 1700000001000) "" "" false Hwf))).
Defined.

(** X29. Dismissing a notification right after it was added gives back
    the state before, provided no older notification carries the same
    id (the id is the clock at the time of adding). *)
Theorem dismissing_a_fresh_toast (message : string) (type : ToastType) (now : Z)
    (st : App.State) :
  Forall (fun toast => ToastMessage.id toast <> now) (App.toasts st) ->
  removeToast now (addToast message type now st) = st.
Proof.
  intros Hfresh. unfold removeToast, addToast.
  cbn [App.toasts App.setToasts].
  rewrite filter_app, filter_cons_False by (cbn; tauto).
  rewrite filter_nil, app_nil_r.
  assert (Hkeep : filter (fun toast => ToastMessage.id toast <> now) (App.toasts st)
                  = App.toasts st).
  { induction Hfresh as [|t l Ht _ IH]; [reflexivity|].
    rewrite filter_cons_True by exact Ht. now rewrite IH. }
  rewrite Hkeep. now destruct st.
Qed.

Lemma dismissing_a_fresh_toast_witness :
  map (fun toast => (ToastMessage.id toast, ToastMessage.type toast))
    (App.toasts session_with_toast)
  = [(1700000030000, error)]
  /\ Forall (fun toast => ToastMessage.id toast <> 1700000031000)
       (App.toasts session_with_toast)
  /\ removeToast 1700000031000
       (addToast saved_message success 1700000031000 session_with_toast)
     = session_with_toast.
Proof.
  assert (Hfresh : Forall (fun toast => ToastMessage.id toast <> 1700000031000)
                     (App.toasts session_with_toast)).
  { vm_compute. constructor; [discriminate | constructor]. }
  split; [vm_compute; reflexivity|].
  split; [exact Hfresh|].
  exact (dismissing_a_fresh_toast saved_message success 1700000031000
           session_with_toast Hfresh).
Defined.

(* ===================================================================== *)
(** ** Properties: the connection test                                    *)
(* ===================================================================== *)

Section Probing.

Variable remote : Probe.Remote.

Lemma testStorageConnection_with_both (id token : string) :
  id <> "" -> token <> "" ->
  testStorageConnection remote (Some id) (Some token)
  = ([testStorageConnection_request id token],
     testStorageConnection_try id (remote (testStorageConnection_request id token))).
Proof. intros Hid Htoken. now destruct id, token. Qed.

(** When the [try] block reports success. *)
Lemma testStorageConnection_try_succeeds (id : string) (outcome : Probe.Outcome) :
  Probe.success (testStorageConnection_try id outcome) = true <->
  exists r granted,
    outcome = Probe.Resolved r /\
    Http.ok (Probe.response r) = true /\
    Probe.scopes r = Some granted /\
    Js.includes granted "gist" = true.
Proof.
  unfold testStorageConnection_try. split.
  - destruct outcome as [m | r]; [discriminate|].
    destruct (Http.ok (Probe.response r)) eqn:Hok; cbn [negb].
    + destruct (Probe.scopes r) as [granted|] eqn:Hscopes; [|discriminate].
      change (default "" (Some granted)) with granted.
      destruct (Js.truthy (Some granted)); [|discriminate].
      destruct (Js.includes granted "gist") eqn:Hgist; [|discriminate].
      intros _. exists r, granted. easy.
    + destruct (_ =? 404); [discriminate|]. destruct (_ =? 401); discriminate.
  - intros (r & granted & -> & Hok & Hscopes & Hgist).
    rewrite Hok, Hscopes. cbn [negb].
    change (default "" (Some granted)) with granted.
    assert (Htruthy : Js.truthy (Some granted) = true).
    { destruct granted; [discriminate Hgist | reflexivity]. }
    rewrite Htruthy, Hgist. reflexivity.
Qed.

(** X30. The connection test reports success exactly when both the id and
    the token were given, the store answered the request with a success
    status, and the scopes granted to the token include "gist"; the
    message is then the one of a working connection.  It sends no
    request when the id or the token is missing, and never more than
    one. *)
Theorem connection_test_succeeds_iff (gistId githubToken : option string) :
  let '(requests, result) := testStorageConnection remote gistId githubToken in
  (Probe.success result = true <->
   exists id token r granted,
     gistId = Some id /\ id <> "" /\ githubToken = Some token /\ token <> "" /\
     remote (testStorageConnection_request id token) = Probe.Resolved r /\
     Http.ok (Probe.response r) = true /\
     Probe.scopes r = Some granted /\
     Js.includes granted "gist" = true) /\
  (Probe.success result = true -> Probe.message result = connected_message) /\
  (requests = [] <-> Js.truthy gistId = false \/ Js.truthy githubToken = false) /\
  (length requests <= 1)%nat.
Proof.
  destruct gistId as [[|c id]|], githubToken as [[|d token]|];
    try (cbn; split; [split; [discriminate | intros (? & ? & ? & ? & H1 & H2 & H3 & H4 & _);
                                             congruence]|];
         split; [discriminate|]; split; [split; [tauto | reflexivity] | lia]).
  rewrite testStorageConnection_with_both by discriminate.
  split; [|split; [|split]].
  - rewrite testStorageConnection_try_succeeds. split.
    + intros (r & granted & Hr & Hok & Hscopes & Hgist).
      exists (String c id), (String d token), r, granted.
      repeat split; try discriminate; assumption.
    + intros (id' & token' & r & granted & Hid & _ & Htoken & _ & Hr & Hrest).
      injection Hid as <-. injection Htoken as <-. eauto.
  - unfold testStorageConnection_try.
    destruct (remote _) as [m | r]; [discriminate|].
    destruct (negb (Http.ok (Probe.response r))).
    + destruct (_ =? 404); [discriminate|]. destruct (_ =? 401); discriminate.
    + destruct (_ || _); [discriminate | reflexivity].
  - split; [discriminate | intros [H | H]; discriminate H].
  - cbn. lia.
Qed.

(** A test that fails because of the store tells the three causes
    apart: an unknown document (404), a token that is not accepted (401),
    and any other status, for which the status text of the answer is
    shown; the three messages are different texts. *)
Theorem connection_test_failure_messages (id token : string) (r : Probe.Response) :
  id <> "" -> token <> "" ->
  remote (testStorageConnection_request id token) = Probe.Resolved r ->
  Http.ok (Probe.response r) = false ->
  let result := snd (testStorageConnection remote (Some id) (Some token)) in
  let status := Http.status (Probe.response r) in
  Probe.success result = false /\
  (status = 404 -> result = connection_failed (probe_not_found_message id)) /\
  (status = 401 -> result = connection_failed token_invalid_message) /\
  (status <> 404 -> status <> 401 ->
   result = connection_failed (probe_api_error_message (Probe.statusText r))) /\
  probe_not_found_message id <> token_invalid_message /\
  (forall text, probe_api_error_message text <> token_invalid_message) /\
  (forall text, probe_api_error_message text <> probe_not_found_message id).
Proof.
  intros Hid Htoken Hremote Hok. cbn zeta.
  rewrite (testStorageConnection_with_both _ _ Hid Htoken), Hremote. cbn [snd].
  unfold testStorageConnection_try. rewrite Hok. cbn [negb].
  split; [|split; [|split; [|split; [|split; [|split]]]]].
  - destruct (_ =? 404); [reflexivity|]. now destruct (_ =? 401).
  - intros ->. reflexivity.
  - intros ->. reflexivity.
  - intros H404 H401.
    apply Z.eqb_neq in H404, H401. now rewrite H404, H401.
  - discriminate.
  - intros text. discriminate.
  - intros text. discriminate.
Qed.

End Probing.

Lemma connection_test_failure_messages_witness :
  snd (testStorageConnection (granting 401 None) (Some PUBLIC_GIST_ID) (Some "ghp_old"))
  = connection_failed token_invalid_message.
Proof.
  refine (proj1 (proj2 (proj2 (connection_test_failure_messages (granting 401 None)
                                 PUBLIC_GIST_ID "ghp_old"
                                 (Probe.mkResponse
                                    (Http.mkResponse 401 None (Js.Returns no_document))
                                    "OK" None)
                                 _ _ eq_refl eq_refl))) eq_refl).
  - discriminate.
  - discriminate.
Defined.

(* ===================================================================== *)
(** ** Examples for the lemmas on reading                                 *)
(* ===================================================================== *)

Lemma usable_payload_is_returned_witness :
  snd (getSources pushing_store (Some PUBLIC_GIST_ID) (Some "W/1"))
  = inr (Fetched.mk 200 (Some [fresh_source]) (Some "W/2")).
Proof.
  apply (usable_payload_is_returned pushing_store (Some "W/1") PUBLIC_GIST_ID
           (Http.mkResponse 200 (Some "W/2")
              (Js.Returns (document_of (JArray [fresh_source]))))
           {[ FILENAME := Gist.mkFile (Js.Returns (JArray [fresh_source])) ]} None
           fresh_source []).
  - discriminate.
  - reflexivity.
  - reflexivity.
  - reflexivity.
  - apply lookup_singleton_eq.
Defined.

Lemma unparsable_file_is_an_error_witness :
  let broken : Gist.Data :=
    Gist.mkData
      (Some {[ FILENAME := Gist.mkFile (Js.Throws "Unexpected token h in JSON") ]})
      None in
  snd (getSources (answering_with 200 (Some "W/2") broken) (Some PUBLIC_GIST_ID) None)
  = inl (Error network_error_message).
Proof.
  cbn zeta.
  apply (unparsable_file_is_an_error _ None PUBLIC_GIST_ID
           (Http.mkResponse 200 (Some "W/2")
              (Js.Returns
                 (Gist.mkData
                    (Some {[ FILENAME :=
                               Gist.mkFile (Js.Throws "Unexpected token h in JSON") ]})
                    None)))
           {[ FILENAME := Gist.mkFile (Js.Throws "Unexpected token h in JSON") ]} None
           "Unexpected token h in JSON").
  - discriminate.
  - reflexivity.
  - reflexivity.
  - reflexivity.
  - apply lookup_singleton_eq.
  - reflexivity.
Defined.
